(** * restate_client: the synchronous and asynchronous Restate HTTP clients

    A shallow embedding of [restate_client/base.py],
    [restate_client/sync_client.py] and [restate_client/async_client.py].

    The clients are glue around two third-party transports ([requests] and
    [aiohttp]).  The transports are not part of the repository, so they
    appear here as a _world_: a function from the request that is put on
    the wire to what comes back (a response, or an exception raised by the
    library), together with what the session hands to the keep-alive
    adapter of the repository.  Every client method is a computation in a small
    state-and-exception monad whose state is the Python object ([self]),
    the list of requests issued so far and the list of log records. *)

From Stdlib Require Import ZArith String Ascii List Bool Lia DecimalString.
From stdpp Require Import base option list strings gmap.

#[local] Set Warnings "-register-all".

Local Open Scope string_scope.
Local Open Scope Z_scope.

(** ** Python values, truthiness and formatting *)

Module Py.

(** JSON-like Python values: what a payload holds and what a decoded body
    yields.  [None], [bool], [int], [str], [list] and [dict] (insertion
    ordered, as Python's). *)
Inductive value :=
| VNone
| VBool (b : bool)
| VInt (n : Z)
| VStr (s : string)
| VList (l : list value)
| VDict (d : list (string * value)).

(** An argument of a call: a plain value, or an object exposing
    [model_dump_json] (a pydantic model), represented by the value that
    [json.loads(data.model_dump_json())] gives. *)
Inductive pyobj :=
| Plain (v : value)
| Model (dumped : value).

(** [bool(v)]. *)
Definition truthy (v : value) : bool :=
  match v with
  | VNone => false
  | VBool b => b
  | VInt n => negb (n =? 0)
  | VStr s => negb (String.eqb s "")
  | VList l => match l with [] => false | _ => true end
  | VDict d => match d with [] => false | _ => true end
  end.

(** [bool(data)] for a call argument; an object without [__bool__] and
    [__len__] is true. *)
Definition truthy_obj (data : pyobj) : bool :=
  match data with
  | Plain v => truthy v
  | Model _ => true
  end.

(** [bool(s)] for an [Optional[str]] argument: [None] and [""] are false. *)
Definition truthy_str (s : option string) : bool :=
  match s with
  | Some s => negb (String.eqb s "")
  | None => false
  end.

(** [f"{s}"] for an [Optional[str]]. *)
Definition fmt (s : option string) : string :=
  match s with
  | Some s => s
  | None => "None"
  end.

(** [f"{n}"] for an [int]. *)
Definition str_of_int (n : Z) : string := NilZero.string_of_int (Z.to_int n).

(** [needle in hay] on strings. *)
Fixpoint contains (needle hay : string) : bool :=
  String.prefix needle hay ||
  match hay with
  | EmptyString => false
  | String _ hay' => contains needle hay'
  end.

(** [c.lower()] on the ASCII range. *)
Definition lower_ascii (c : ascii) : ascii :=
  let n := N_of_ascii c in
  if ((65 <=? n) && (n <=? 90))%N then ascii_of_N (n + 32) else c.

Fixpoint lower (s : string) : string :=
  match s with
  | EmptyString => EmptyString
  | String c s' => String (lower_ascii c) (lower s')
  end.

(** Exception classes that the clients raise, catch or let through.  The
    last two derive from [BaseException] without being an [Exception]:
    no [except Exception] clause catches them. *)
Inductive exn_class :=
| Exception
| ValueError
| RuntimeError
| AttributeError
| UnboundLocalError
| TimeoutError              (* asyncio.TimeoutError *)
| JSONDecodeError           (* json.JSONDecodeError *)
| TerminalError             (* restate.exceptions.TerminalError *)
| RequestException          (* requests.RequestException *)
| HTTPError                 (* requests.exceptions.HTTPError *)
| ConnectionError           (* requests.exceptions.ConnectionError *)
| RequestsJSONDecodeError   (* requests.exceptions.JSONDecodeError *)
| ClientError               (* aiohttp.ClientError *)
| ClientResponseError       (* aiohttp.ClientResponseError *)
| ClientConnectionError     (* aiohttp.ClientConnectionError *)
| ClientPayloadError        (* aiohttp.ClientPayloadError *)
| CancelledError            (* asyncio.CancelledError *)
| KeyboardInterrupt.

#[global] Instance exn_class_eq_dec : EqDecision exn_class.
Proof. solve_decision. Defined.

(** The class together with its ancestors (up to [Exception];
    [BaseException] itself is named by no clause of the clients). *)
Definition mro (c : exn_class) : list exn_class :=
  match c with
  | Exception => [Exception]
  | ValueError => [ValueError; Exception]
  | RuntimeError => [RuntimeError; Exception]
  | AttributeError => [AttributeError; Exception]
  | UnboundLocalError => [UnboundLocalError; Exception]
  | TimeoutError => [TimeoutError; Exception]
  | JSONDecodeError => [JSONDecodeError; ValueError; Exception]
  | TerminalError => [TerminalError; Exception]
  | RequestException => [RequestException; Exception]
  | HTTPError => [HTTPError; RequestException; Exception]
  | ConnectionError => [ConnectionError; RequestException; Exception]
  | RequestsJSONDecodeError =>
      [RequestsJSONDecodeError; RequestException; JSONDecodeError;
       ValueError; Exception]
  | ClientError => [ClientError; Exception]
  | ClientResponseError => [ClientResponseError; ClientError; Exception]
  | ClientConnectionError => [ClientConnectionError; ClientError; Exception]
  | ClientPayloadError => [ClientPayloadError; ClientError; Exception]
  | CancelledError => [CancelledError]
  | KeyboardInterrupt => [KeyboardInterrupt]
  end.

(** A raised exception: its class, [str(e)], and the HTTP status it
    carries, if any ([e.response.status_code] for [requests], [e.status]
    for [aiohttp]). *)
Record exn := Exn {
  exn_cls : exn_class;
  exn_str : string;
  exn_status : option Z
}.

Definition isinstance (e : exn) (c : exn_class) : bool :=
  bool_decide (c ∈ mro (exn_cls e)).

Definition isinstance_any (e : exn) (cs : list exn_class) : bool :=
  existsb (isinstance e) cs.

Definition mk_exn (c : exn_class) (s : string) : exn := Exn c s None.

End Py.
Import Py.

(** ** Requests, responses and the log *)

Module Http.

Inductive method := GET | POST | DELETE.

(** What a session call puts on the wire.  [req_json] is the [json=]
    argument, [req_headers] the [headers=] argument (empty when the call
    passes none). *)
Record request := Request {
  req_method : method;
  req_url : string;
  req_json : option value;
  req_headers : gmap string string
}.

(** What [response.json()] does. *)
Inductive json_result :=
| Decoded (v : value)
| DecodeFails (e : exn).

(** A response object, by what the clients observe of it.
    [status_error_str] is [str(e)] of the exception that the library's
    [raise_for_status] builds for this response. *)
Record response := Response {
  status_code : Z;
  content_type : option string;
  text : string;
  json : json_result;
  status_error_str : string
}.

(** What the transport does with a request. *)
Inductive reply :=
| Responded (r : response)
| Failed (e : exn).

Inductive level := DEBUG | INFO | WARNING | ERROR.

Definition log_record : Type := level * string.

End Http.
Import Http.

(** ** [base.py]: sessions, [parse_data], the keep-alive adapter and the
    effect monad *)

Module Base.

Definition CONNECT_TIMEOUT : Z := 3.
Definition KEEP_ALIVE_INTERVAL : Z := 5.
Definition KEEP_ALIVE_TIMEOUT : Z := 5.

(** [parse_data]: a dict is returned as it is, an object with
    [model_dump_json] is dumped and loaded back, anything else is returned
    as it is. *)
Definition parse_data (data : pyobj) : value :=
  match data with
  | Plain (VDict d) => VDict d
  | Model dumped => dumped
  | Plain v => v
  end.

(** The [requests.Session] that [_create_session] configures. *)
Record Session := {
  session_timeout : Z * Z;
  retry_total : Z;
  retry_backoff_factor : Z;
  retry_status_forcelist : list Z;
  pool_connections : Z;
  pool_maxsize : Z;
  pool_block : bool
}.

(** The [aiohttp.ClientSession] that [_create_async_session] configures. *)
Record AsyncSession := {
  connector_limit : Z;
  connector_limit_per_host : Z;
  connector_keepalive_timeout : Z;
  timeout_total : Z;
  timeout_connect : Z
}.

(** The fields of a [RestateBase] instance ([_url] is added by the
    subclasses). *)
Record object := Object {
  _debug : bool;
  _base_url : string;
  _connect_timeout : Z;
  _keep_alive_interval : Z;
  _keep_alive_timeout : Z;
  _session : option Session;
  _async_session : option AsyncSession;
  _url : string
}.

Definition set_url (u : string) (o : object) : object :=
  Object (_debug o) (_base_url o) (_connect_timeout o) (_keep_alive_interval o)
    (_keep_alive_timeout o) (_session o) (_async_session o) u.

Definition set_session (s : option Session) (o : object) : object :=
  Object (_debug o) (_base_url o) (_connect_timeout o) (_keep_alive_interval o)
    (_keep_alive_timeout o) s (_async_session o) (_url o).

Definition set_async_session (s : option AsyncSession) (o : object) : object :=
  Object (_debug o) (_base_url o) (_connect_timeout o) (_keep_alive_interval o)
    (_keep_alive_timeout o) (_session o) s (_url o).

(** The outside of the program: what the transport answers to a request;
    the URLs of the prepared requests that a [requests] session hands to
    its mounted adapter while it serves a call (one for a plain exchange,
    one more for every redirect that is followed, none when the call
    fails before anything is sent); and whether building a new [aiohttp]
    session raises.  Building a session is synchronous code, which no
    cancellation reaches: what it raises is an [Exception]. *)
Record world := World {
  server : request → reply;
  adapter_sends : request → list string;
  new_async_session : option exn;
  new_async_session_raises :
    ∀ e, new_async_session = Some e → isinstance e Exception = true
}.

(** The state a method runs in: the object, every call made on a session
    so far, and every record handed to the logger ([debug], [warning],
    [error]) so far. *)
Record state := State {
  self : object;
  trace : list request;
  log : list log_record
}.

Inductive outcome (A : Type) :=
| Return (a : A)
| Raise (e : exn).
Arguments Return {A} a.
Arguments Raise {A} e.

Definition M (A : Type) : Type := state → outcome A * state.

#[global] Instance M_ret : MRet M := λ A a st, (Return a, st).

#[global] Instance M_bind : MBind M := λ A B f c st,
  match c st with
  | (Return a, st') => f a st'
  | (Raise e, st') => (Raise e, st')
  end.

Definition raise {A} (e : exn) : M A := λ st, (Raise e, st).

Definition get_self : M object := λ st, (Return (self st), st).

Definition modify_self (f : object → object) : M unit := λ st,
  (Return tt, State (f (self st)) (trace st) (log st)).

Definition logger (lvl : level) (msg : string) : M unit := λ st,
  (Return tt, State (self st) (trace st) (log st ++ [(lvl, msg)])).

Definition logger_each (records : list log_record) : M unit := λ st,
  (Return tt, State (self st) (trace st) (log st ++ records)).

(** One [except C1, ..., Cn as e: h e] clause. *)
Definition clause (A : Type) : Type := list exn_class * (exn → M A).

(** The first clause that matches handles the exception; with none, it
    propagates.  An exception raised by a handler is not offered to the
    clauses again. *)
Fixpoint dispatch {A} (clauses : list (clause A)) (e : exn) : M A :=
  match clauses with
  | [] => raise e
  | (cs, h) :: rest => if isinstance_any e cs then h e else dispatch rest e
  end.

Definition try_except {A} (body : M A) (clauses : list (clause A)) : M A :=
  λ st,
    match body st with
    | (Return a, st') => (Return a, st')
    | (Raise e, st') => dispatch clauses e st'
    end.

(** The keep-alive adapter that [_create_session] mounts on the session,
    with the logger of the client for its own. *)
Module TCPKeepAliveAdapter.

Inductive socket_level := SOL_SOCKET | IPPROTO_TCP.
Inductive socket_name := SO_KEEPALIVE | TCP_KEEPIDLE | TCP_KEEPINTVL | TCP_KEEPCNT.

Definition socket_option : Type := socket_level * socket_name * Z.

(** The value of a keyword argument of [init_poolmanager]: a list of
    socket options, or any other value ([None] is [KwOther VNone]). *)
Inductive kwarg :=
| KwSocketOptions (options : list socket_option)
| KwOther (v : value).

(** [init_poolmanager]: the keyword arguments that are handed on to
    [HTTPAdapter.init_poolmanager].  [kwargs.get('socket_options') is
    None] holds when the argument is missing and when it is [None]. *)
Definition init_poolmanager (kwargs : gmap string kwarg)
    : M (gmap string kwarg) :=
  match kwargs !! "socket_options" with
  | None | Some (KwOther VNone) =>
      let socket_options :=
        [(SOL_SOCKET, SO_KEEPALIVE, 1);
         (IPPROTO_TCP, TCP_KEEPIDLE, KEEP_ALIVE_TIMEOUT);
         (IPPROTO_TCP, TCP_KEEPINTVL, KEEP_ALIVE_INTERVAL);
         (IPPROTO_TCP, TCP_KEEPCNT, 2)] in
      let kwargs := <[ "socket_options" := KwSocketOptions socket_options ]> kwargs in
      logger DEBUG
        ("TCP keep-alive configured: OS will send keep-alive pings after "
         +:+ str_of_int KEEP_ALIVE_TIMEOUT +:+ "s idle, every "
         +:+ str_of_int KEEP_ALIVE_INTERVAL +:+ "s, max 2 failed probes");;
      mret kwargs
  | Some _ => mret kwargs
  end.

(** [TCPKeepAliveAdapter.__init__]: [HTTPAdapter.__init__] configures
    the pool manager, with [block] for its one keyword argument. *)
Definition init : M unit :=
  init_poolmanager {[ "block" := KwOther (VBool false) ]};;
  mret tt.

(** [send]: the record that is logged for the prepared request with the
    URL [url], before the request is handed to [HTTPAdapter.send]. *)
Definition send_record (url : string) : log_record :=
  (DEBUG, "Keep-alive: Sending request to " +:+ url
          +:+ " (TCP keep-alive pings configured and active)").

End TCPKeepAliveAdapter.

Section Transport.
Context (w : world).

(** A call on a live session: recorded, then answered by the world. *)
Definition perform (req : request) : M response := λ st,
  let st' := State (self st) (trace st ++ [req]) (log st) in
  match server w req with
  | Responded r => (Return r, st')
  | Failed e => (Raise e, st')
  end.

(** [_create_session]: the keep-alive adapter is built, with the logger
    of the object, and mounted on a new session. *)
Definition _create_session : M Session :=
  o ← get_self;
  TCPKeepAliveAdapter.init;;
  mret {| session_timeout := (_connect_timeout o, 60);
          retry_total := 3;
          retry_backoff_factor := 1;
          retry_status_forcelist := [429; 500; 502; 503; 504];
          pool_connections := 10;
          pool_maxsize := 20;
          pool_block := false |}.

(** [_create_async_session]: the live session is reused; otherwise a
    connector and a session are built, which may raise. *)
Definition _create_async_session : M AsyncSession :=
  o ← get_self;
  match _async_session o with
  | Some s => mret s
  | None =>
      match new_async_session w with
      | Some e => raise e
      | None =>
          mret {| connector_limit := 100;
                  connector_limit_per_host := 30;
                  connector_keepalive_timeout := _keep_alive_timeout o;
                  timeout_total := 60;
                  timeout_connect := _connect_timeout o |}
      end
  end.

(** [response.json()]. *)
Definition response_json (r : response) : M value :=
  match json r with
  | Decoded v => mret v
  | DecodeFails e => raise e
  end.

(** ["PYTEST_CURRENT_TEST" in os.environ or "PYTEST_VERSION" in
    os.environ]. *)
Definition in_test_harness (environ : gmap string string) : bool :=
  bool_decide (is_Some (environ !! "PYTEST_CURRENT_TEST")) ||
  bool_decide (is_Some (environ !! "PYTEST_VERSION")).

(** [RestateBase.__init__].  Under a test harness (one of the two pytest
    variables is in the environment) no session is built at all.  The
    attributes start unset, which the record shows as [None] and [""].

    Outside of the harness [_create_async_session] reads
    [self._async_session] before the attribute is set, so the read falls
    to [__getattr__] of the class: [probe] is what that call does.  An
    exception of the probe is caught with those of the construction. *)
Definition RestateBase_init_probing (probe : M unit)
    (environ : gmap string string)
    (debug : bool) (base_url : string)
    (connect_timeout keep_alive_interval keep_alive_timeout : option Z)
    : M unit :=
  modify_self (λ _,
    Object debug base_url
      (default CONNECT_TIMEOUT connect_timeout)
      (default KEEP_ALIVE_INTERVAL keep_alive_interval)
      (default KEEP_ALIVE_TIMEOUT keep_alive_timeout)
      None None "");;
  if in_test_harness environ then
    modify_self (set_session None);;
    modify_self (set_async_session None)
  else
    session ← _create_session;
    modify_self (set_session (Some session));;
    try_except
      (probe;;
       s ← _create_async_session;
       modify_self (set_async_session (Some s)))
      [([Exception], λ e,
         logger WARNING
           ("Failed to create async session: " +:+ exn_str e +:+
            ", will be initialized later.");;
         modify_self (set_async_session None))].

(** [RestateBase.__init__] as the proxies run it: their [__getattr__]
    answers the probe with a closure and does nothing else. *)
Definition RestateBase_init (environ : gmap string string)
    (debug : bool) (base_url : string)
    (connect_timeout keep_alive_interval keep_alive_timeout : option Z)
    : M unit :=
  RestateBase_init_probing (mret tt) environ debug base_url
    connect_timeout keep_alive_interval keep_alive_timeout.

End Transport.

(** Calling a class: [init] runs on a fresh object, sharing the wire and
    the logger with the caller, and the new object is the result. *)
Definition blank : object := Object false "" 0 0 0 None None "".

Definition construct (init : M unit) : M object := λ st,
  match init (State blank (trace st) (log st)) with
  | (Return _, st') => (Return (self st'), State (self st) (trace st') (log st'))
  | (Raise e, st') => (Raise e, State (self st) (trace st') (log st'))
  end.

(** Running a method on an object, from an empty wire and an empty log. *)
Definition run {A} (c : M A) (o : object) : outcome A * state :=
  c (State o [] []).

End Base.
Import Base.

(** ** [sync_client.py] *)

Module Requests.

(** [response.raise_for_status()] of [requests]: statuses 400 to 599 raise
    an [HTTPError] that carries the response. *)
Definition raise_for_status (r : response) : M unit :=
  if (400 <=? status_code r) && (status_code r <? 600)
  then raise (Exn HTTPError (status_error_str r) (Some (status_code r)))
  else mret tt.

Section Session.
Context (w : world).

(** What the mounted adapter logs while the session serves a call: the
    record of [TCPKeepAliveAdapter.send] for every prepared request that
    reaches it. *)
Definition adapter_log (req : request) : M unit :=
  logger_each (map TCPKeepAliveAdapter.send_record (adapter_sends w req)).

(** [session.<attr>(...)]: on [None] the attribute access itself fails; a
    live session sends through its adapter. *)
Definition call (attr : string) (s : option Session) (req : request)
    : M response :=
  match s with
  | None =>
      raise (mk_exn AttributeError
               ("'NoneType' object has no attribute '" +:+ attr +:+ "'"))
  | Some _ => adapter_log req;; perform w req
  end.

Definition get (s : option Session) (url : string) : M response :=
  call "get" s (Request GET url None ∅).

Definition post (s : option Session) (url : string) (body : value)
    (headers : gmap string string) : M response :=
  call "post" s (Request POST url (Some body) headers).

Definition delete (s : option Session) (url : string) : M response :=
  call "delete" s (Request DELETE url None ∅).

End Session.
End Requests.

Module RestateService.
Section Methods.
Context (w : world).

(** [RestateService._request]. *)
Definition _request (data : pyobj) : M (option response) :=
  o ← get_self;
  match _session o with
  | None => mret None
  | Some _ =>
      response ←
        (if truthy_obj data
         then Requests.post w (_session o) (_url o) (parse_data data)
                {[ "Content-Type" := "application/json" ]}
         else Requests.get w (_session o) (_url o));
      if negb (status_code response =? 200) then
        logger ERROR ("Response: " +:+ text response);;
        raise (mk_exn RequestException
                 ("Request failed: " +:+ str_of_int (status_code response)))
      else mret (Some response)
  end.

(** The closure that [RestateService.__getattr__(name)] returns, applied
    to [data] and [key] (both default to [None]). *)
Definition _get_handler (name : string) (data : pyobj) (key : option string)
    : M value :=
  o ← get_self;
  (if truthy_str key
   then modify_self (set_url (_base_url o +:+ "/" +:+ fmt key +:+ "/" +:+ name))
   else modify_self (set_url (_base_url o +:+ "/" +:+ name)));;
  response ← _request data;
  match response with
  | None =>
      raise (mk_exn AttributeError
               "'NoneType' object has no attribute 'text'")
  | Some response =>
      if negb (String.eqb (text response) "")
      then response_json response
      else mret (VDict [])
  end.

(** [RestateService.__init__]. *)
Definition init (environ : gmap string string) (debug : bool)
    (base_url : string) : M unit :=
  RestateBase_init w environ debug base_url None None None;;
  modify_self (set_url "").

End Methods.
End RestateService.

Module RestateClient.
Section Methods.
Context (w : world).

(** [RestateClient.__getattr__(name)]: the object of the proxy that is
    built for the service [name]. *)
Definition getattr (environ : gmap string string) (name : string)
    : M object :=
  o ← get_self;
  modify_self (set_url (_base_url o +:+ "/" +:+ name));;
  o ← get_self;
  construct (RestateService.init w environ (_debug o) (_url o)).

(** [RestateClient.__init__] is [RestateBase.__init__]; the probe of
    [_async_session] is [__getattr__("_async_session")], which writes
    [_url] and builds a proxy. *)
Definition init (environ : gmap string string) (debug : bool)
    (base_url : string)
    (connect_timeout keep_alive_interval keep_alive_timeout : option Z)
    : M unit :=
  RestateBase_init_probing w (getattr environ "_async_session";; mret tt)
    environ debug base_url connect_timeout keep_alive_interval
    keep_alive_timeout.

(** [service_send].  [url] is bound before anything in the [try] block
    can raise, so the handler always sees it. *)
Definition service_send (service_name handler : string) (payload : pyobj)
    (delay_seconds : Z) (idempotency_key : option string) : M value :=
  o ← get_self;
  let url := _base_url o +:+ "/" +:+ service_name +:+ "/" +:+ handler +:+ "/send" in
  let url := if 0 <? delay_seconds
             then url +:+ "?delay=" +:+ str_of_int delay_seconds +:+ "s"
             else url in
  try_except
    (if negb (bool_decide (is_Some (_session o))) then mret VNone
     else
       let headers : gmap string string :=
         {[ "Content-Type" := "application/json" ]} in
       let headers :=
         if truthy_str idempotency_key
         then <[ "idempotency-key" := fmt idempotency_key ]> headers
         else headers in
       response ← Requests.post w (_session o) url (parse_data payload) headers;
       Requests.raise_for_status response;;
       logger DEBUG ("Sent payload to " +:+ url +:+ " successfully.");;
       mret VNone)
    [([RequestException], λ e,
       logger ERROR ("Failed to send payload to " +:+ url +:+ ": " +:+ exn_str e);;
       raise (mk_exn TerminalError (exn_str e)))].

(** [object_send]. *)
Definition object_send (service_name handler key : string) (payload : pyobj)
    (delay_seconds : Z) (idempotency_key : option string) : M value :=
  o ← get_self;
  let url := _base_url o +:+ "/" +:+ service_name +:+ "/" +:+ key +:+ "/"
             +:+ handler +:+ "/send" in
  let url := if 0 <? delay_seconds
             then url +:+ "?delay=" +:+ str_of_int delay_seconds +:+ "s"
             else url in
  try_except
    (if negb (bool_decide (is_Some (_session o))) then mret VNone
     else
       let headers : gmap string string :=
         {[ "Content-Type" := "application/json" ]} in
       let headers :=
         if truthy_str idempotency_key
         then <[ "idempotency-key" := fmt idempotency_key ]> headers
         else headers in
       response ← Requests.post w (_session o) url (parse_data payload) headers;
       Requests.raise_for_status response;;
       logger DEBUG ("Sent payload to " +:+ url +:+ " successfully.");;
       mret VNone)
    [([RequestException], λ e,
       logger ERROR ("Failed to send payload to " +:+ url +:+ ": " +:+ exn_str e);;
       raise (mk_exn TerminalError (exn_str e)))].

(** [generic_send]: [if key:] is a truthiness test. *)
Definition generic_send (service_name handler : string) (payload : pyobj)
    (key : option string) (delay_seconds : Z)
    (idempotency_key : option string) : M value :=
  if truthy_str key
  then object_send service_name handler (fmt key) payload delay_seconds
         idempotency_key
  else service_send service_name handler payload delay_seconds
         idempotency_key.

(** [service_attach]. *)
Definition service_attach (service_name handler idempotency_key : option string)
    : M value :=
  o ← get_self;
  if negb (bool_decide (is_Some (_session o))) then mret VNone
  else if negb (truthy_str service_name)
  then raise (mk_exn ValueError "Service name is required")
  else if negb (truthy_str handler)
  then raise (mk_exn ValueError "Handler is required")
  else if negb (truthy_str idempotency_key)
  then raise (mk_exn ValueError "Idempotency key is required")
  else
    try_except
      (let url := _base_url o +:+ "/restate/invocation/" +:+ fmt service_name
                  +:+ "/" +:+ fmt handler +:+ "/" +:+ fmt idempotency_key
                  +:+ "/attach" in
       response ← Requests.get w (_session o) url;
       Requests.raise_for_status response;;
       if negb (String.eqb (text response) "")
       then response_json response
       else mret (VDict []))
      [([RequestException], λ e,
         logger ERROR
           ("Failed to attach service " +:+ fmt service_name +:+ " to "
            +:+ fmt handler +:+ " with idempotency key "
            +:+ fmt idempotency_key +:+ ": " +:+ exn_str e);;
         raise e)].

(** [object_attach]. *)
Definition object_attach (service_name handler key idempotency_key : option string)
    : M value :=
  o ← get_self;
  if negb (bool_decide (is_Some (_session o))) then mret VNone
  else if negb (truthy_str service_name)
  then raise (mk_exn ValueError "Service name is required")
  else if negb (truthy_str handler)
  then raise (mk_exn ValueError "Handler is required")
  else if negb (truthy_str key)
  then raise (mk_exn ValueError "Key is required")
  else if negb (truthy_str idempotency_key)
  then raise (mk_exn ValueError "Idempotency key is required")
  else
    try_except
      (let url := _base_url o +:+ "/restate/invocation/" +:+ fmt service_name
                  +:+ "/" +:+ fmt key +:+ "/" +:+ fmt handler +:+ "/"
                  +:+ fmt idempotency_key +:+ "/attach" in
       response ← Requests.get w (_session o) url;
       Requests.raise_for_status response;;
       if negb (String.eqb (text response) "")
       then response_json response
       else mret (VDict []))
      [([RequestException], λ e,
         logger ERROR
           ("Failed to attach virtual object " +:+ fmt service_name +:+ " to "
            +:+ fmt handler +:+ " with idempotency key "
            +:+ fmt idempotency_key +:+ ": " +:+ exn_str e);;
         raise e)].

(** [generic_attach]. *)
Definition generic_attach (service_name handler idempotency_key key : option string)
    : M value :=
  if truthy_str key
  then object_attach service_name handler key idempotency_key
  else service_attach service_name handler idempotency_key.

(** [service_output]: no [raise_for_status] here. *)
Definition service_output (service_name handler idempotency_key : option string)
    : M value :=
  o ← get_self;
  if negb (bool_decide (is_Some (_session o))) then mret VNone
  else if negb (truthy_str service_name)
  then raise (mk_exn ValueError "Service name is required")
  else if negb (truthy_str handler)
  then raise (mk_exn ValueError "Handler is required")
  else if negb (truthy_str idempotency_key)
  then raise (mk_exn ValueError "Idempotency key is required")
  else
    try_except
      (let url := _base_url o +:+ "/restate/invocation/" +:+ fmt service_name
                  +:+ "/" +:+ fmt handler +:+ "/" +:+ fmt idempotency_key
                  +:+ "/output" in
       response ← Requests.get w (_session o) url;
       if negb (String.eqb (text response) "")
       then response_json response
       else mret (VDict []))
      [([RequestException], λ e,
         logger ERROR
           ("Failed to get output of service " +:+ fmt service_name
            +:+ " with idempotency key " +:+ fmt idempotency_key +:+ ": "
            +:+ exn_str e);;
         raise e)].

(** [object_output]. *)
Definition object_output (service_name handler key idempotency_key : option string)
    : M value :=
  o ← get_self;
  if negb (bool_decide (is_Some (_session o))) then mret VNone
  else if negb (truthy_str service_name)
  then raise (mk_exn ValueError "Service name is required")
  else if negb (truthy_str handler)
  then raise (mk_exn ValueError "Handler is required")
  else if negb (truthy_str key)
  then raise (mk_exn ValueError "Key is required")
  else if negb (truthy_str idempotency_key)
  then raise (mk_exn ValueError "Idempotency key is required")
  else
    try_except
      (let url := _base_url o +:+ "/restate/invocation/" +:+ fmt service_name
                  +:+ "/" +:+ fmt key +:+ "/" +:+ fmt handler +:+ "/"
                  +:+ fmt idempotency_key +:+ "/output" in
       response ← Requests.get w (_session o) url;
       if negb (String.eqb (text response) "")
       then response_json response
       else mret (VDict []))
      [([RequestException], λ e,
         logger ERROR
           ("Failed to get output of virtual object " +:+ fmt service_name
            +:+ " with idempotency key " +:+ fmt idempotency_key +:+ ": "
            +:+ exn_str e);;
         raise e)].

(** [generic_output]. *)
Definition generic_output (service_name handler idempotency_key key : option string)
    : M value :=
  if truthy_str key
  then object_output service_name handler key idempotency_key
  else service_output service_name handler idempotency_key.

(** [delete_invocation].  The session is used without a test; in the
    [HTTPError] clause [e.response] is [None] when the exception carries
    no response. *)
Definition delete_invocation (invocation_id : string) : M value :=
  o ← get_self;
  try_except
    (let url := _base_url o +:+ "/invocation/" +:+ invocation_id in
     response ← Requests.delete w (_session o) url;
     Requests.raise_for_status response;;
     if negb (String.eqb (text response) "")
     then response_json response
     else mret (VDict []))
    [([HTTPError], λ e,
       match exn_status e with
       | None =>
           raise (mk_exn AttributeError
                    "'NoneType' object has no attribute 'status_code'")
       | Some status_code =>
           if status_code =? 404 then
             logger WARNING ("Invocation " +:+ invocation_id +:+ " not found");;
             mret VNone
           else raise e
       end);
     ([RequestException], λ e,
       logger ERROR
         ("Failed to delete invocation " +:+ invocation_id +:+ ": "
          +:+ exn_str e);;
       raise e)].

End Methods.

(** The names that the class body of [RestateClient] binds; any other
    attribute name falls to [__getattr__]. *)
Definition methods : list string :=
  ["__getattr__"; "service_send"; "object_send"; "generic_send";
   "service_attach"; "object_attach"; "generic_attach";
   "service_output"; "object_output"; "generic_output";
   "delete_invocation"].

End RestateClient.

(** ** [async_client.py]

    A coroutine is run to completion by its caller ([await]), so an
    [async def] is a computation of the same monad. *)

Module Aiohttp.

(** [response.raise_for_status()] of [aiohttp]: every status from 400 on
    raises a [ClientResponseError] that carries the status. *)
Definition raise_for_status (r : response) : M unit :=
  if 400 <=? status_code r
  then raise (Exn ClientResponseError (status_error_str r) (Some (status_code r)))
  else mret tt.

Section Session.
Context (w : world).

Definition get (url : string) : M response :=
  perform w (Request GET url None ∅).

Definition post (url : string) (body : value) (headers : gmap string string)
    : M response :=
  perform w (Request POST url (Some body) headers).

Definition delete (url : string) : M response :=
  perform w (Request DELETE url None ∅).

(** [self._async_session = self._create_async_session()]. *)
Definition refresh_session : M unit :=
  s ← _create_async_session w;
  modify_self (set_async_session (Some s)).

End Session.

(** Reading a local variable that an [except] clause may reach before its
    assignment. *)
Definition local {A} (name : string) (v : option A) : M A :=
  match v with
  | Some a => mret a
  | None =>
      raise (mk_exn UnboundLocalError
               ("cannot access local variable '" +:+ name
                +:+ "' where it is not associated with a value"))
  end.

(** [type(e).__name__], for the message of a failed attribute access. *)
Definition class_name (c : exn_class) : string :=
  match c with
  | Exception => "Exception"
  | ValueError => "ValueError"
  | RuntimeError => "RuntimeError"
  | AttributeError => "AttributeError"
  | UnboundLocalError => "UnboundLocalError"
  | TimeoutError => "TimeoutError"
  | JSONDecodeError => "JSONDecodeError"
  | TerminalError => "TerminalError"
  | RequestException => "RequestException"
  | HTTPError => "HTTPError"
  | ConnectionError => "ConnectionError"
  | RequestsJSONDecodeError => "JSONDecodeError"
  | ClientError => "ClientError"
  | ClientResponseError => "ClientResponseError"
  | ClientConnectionError => "ClientConnectionError"
  | ClientPayloadError => "ClientPayloadError"
  | CancelledError => "CancelledError"
  | KeyboardInterrupt => "KeyboardInterrupt"
  end.

(** [e.status]. *)
Definition status_of (e : exn) : M Z :=
  match exn_status e with
  | Some s => mret s
  | None =>
      raise (mk_exn AttributeError
               ("'" +:+ class_name (exn_cls e)
                +:+ "' object has no attribute 'status'"))
  end.

End Aiohttp.

Module RestateAsyncService.
Section Methods.
Context (w : world).

(** [RestateAsyncService._request] (its [key] parameter is unused). *)
Definition _request (data : pyobj) : M response :=
  Aiohttp.refresh_session w;;
  o ← get_self;
  response ←
    (if truthy_obj data
     then Aiohttp.post w (_url o) (parse_data data)
            {[ "Content-Type" := "application/json" ]}
     else Aiohttp.get w (_url o));
  if negb (status_code response =? 200) then
    logger ERROR ("Response: " +:+ text response);;
    raise (mk_exn ClientError
             ("Request failed: " +:+ str_of_int (status_code response)))
  else mret response.

(** The coroutine that [RestateAsyncService.__getattr__(name)] returns,
    applied to [data] and [key]. *)
Definition _get_handler (name : string) (data : pyobj) (key : option string)
    : M value :=
  o ← get_self;
  (if truthy_str key
   then modify_self (set_url (_base_url o +:+ "/" +:+ fmt key +:+ "/" +:+ name))
   else modify_self (set_url (_base_url o +:+ "/" +:+ name)));;
  response ← _request data;
  let content_type := lower (default "" (content_type response)) in
  if contains "application/json" content_type then
    try_except (response_json response)
      [([ClientPayloadError; ValueError], λ _, mret (VStr (text response)))]
  else mret (VStr (text response)).

(** [RestateAsyncService.__init__]. *)
Definition init (environ : gmap string string) (debug : bool)
    (base_url : string) : M unit :=
  RestateBase_init w environ debug base_url None None None;;
  modify_self (set_url "");;
  Aiohttp.refresh_session w.

End Methods.
End RestateAsyncService.

Module RestateAsyncClient.
Section Methods.
Context (w : world).

(** [RestateAsyncClient.__getattr__(name)]. *)
Definition getattr (environ : gmap string string) (name : string)
    : M object :=
  o ← get_self;
  modify_self (set_url (_base_url o +:+ "/" +:+ name));;
  o ← get_self;
  construct (RestateAsyncService.init w environ (_debug o) (_url o)).

(** [RestateAsyncClient.__init__] is [RestateBase.__init__]; the probe
    of [_async_session] is [__getattr__("_async_session")], which writes
    [_url] and builds a proxy. *)
Definition init (environ : gmap string string) (debug : bool)
    (base_url : string)
    (connect_timeout keep_alive_interval keep_alive_timeout : option Z)
    : M unit :=
  RestateBase_init_probing w (getattr environ "_async_session";; mret tt)
    environ debug base_url connect_timeout keep_alive_interval
    keep_alive_timeout.

(** The [except] clauses of [service_send] and [object_send] (the same
    text in both), by whether [url] has been assigned when they run. *)
Definition send_clauses {A} (url : option string) : list (clause A) :=
  [([ClientError], λ e,
     url ← Aiohttp.local "url" url;
     logger ERROR ("Failed to send payload to " +:+ url +:+ ": " +:+ exn_str e);;
     raise (mk_exn TerminalError (exn_str e)));
   ([RuntimeError], λ _,
     logger ERROR "Failed to create async session";;
     raise (mk_exn TerminalError "Failed to create async session"));
   ([Exception], λ e,
     url ← Aiohttp.local "url" url;
     logger ERROR ("Failed to send payload to " +:+ url +:+ ": " +:+ exn_str e);;
     raise (mk_exn TerminalError (exn_str e)))].

(** [service_send].  The clauses always raise, so the [try] block is run
    in two parts with the same clauses: up to the assignment of [url]
    (where the clauses find [url] unbound) and after it. *)
Definition service_send (service_name handler : string) (payload : pyobj)
    (delay_seconds : Z) (idempotency_key : option string) : M value :=
  o ← get_self;
  try_except (Aiohttp.refresh_session w) (send_clauses None);;
  let url := _base_url o +:+ "/" +:+ service_name +:+ "/" +:+ handler
             +:+ "/send" in
  let url := if 0 <? delay_seconds
             then url +:+ "?delay=" +:+ str_of_int delay_seconds +:+ "s"
             else url in
  try_except
    (let headers : gmap string string :=
       {[ "Content-Type" := "application/json" ]} in
     let headers :=
       if truthy_str idempotency_key
       then <[ "idempotency-key" := fmt idempotency_key ]> headers
       else headers in
     response ← Aiohttp.post w url (parse_data payload) headers;
     Aiohttp.raise_for_status response;;
     logger DEBUG ("Sent payload to " +:+ url +:+ " successfully.");;
     mret VNone)
    (send_clauses (Some url)).

(** [object_send]. *)
Definition object_send (service_name handler key : string) (payload : pyobj)
    (delay_seconds : Z) (idempotency_key : option string) : M value :=
  o ← get_self;
  try_except (Aiohttp.refresh_session w) (send_clauses None);;
  let url := _base_url o +:+ "/" +:+ service_name +:+ "/" +:+ key +:+ "/" +:+ handler
             +:+ "/send" in
  let url := if 0 <? delay_seconds
             then url +:+ "?delay=" +:+ str_of_int delay_seconds +:+ "s"
             else url in
  try_except
    (let headers : gmap string string :=
       {[ "Content-Type" := "application/json" ]} in
     let headers :=
       if truthy_str idempotency_key
       then <[ "idempotency-key" := fmt idempotency_key ]> headers
       else headers in
     response ← Aiohttp.post w url (parse_data payload) headers;
     Aiohttp.raise_for_status response;;
     logger DEBUG ("Sent payload to " +:+ url +:+ " successfully.");;
     mret VNone)
    (send_clauses (Some url)).

(** [generic_send]. *)
Definition generic_send (service_name handler : string) (payload : pyobj)
    (key : option string) (delay_seconds : Z)
    (idempotency_key : option string) : M value :=
  if truthy_str key
  then object_send service_name handler (fmt key) payload delay_seconds
         idempotency_key
  else service_send service_name handler payload delay_seconds
         idempotency_key.

(** [service_attach]: the session is refreshed, then the arguments are
    validated, both outside the [try] block. *)
Definition service_attach (service_name handler idempotency_key : option string)
    : M value :=
  Aiohttp.refresh_session w;;
  o ← get_self;
  if negb (truthy_str service_name)
  then raise (mk_exn ValueError "Service name is required")
  else if negb (truthy_str handler)
  then raise (mk_exn ValueError "Handler is required")
  else if negb (truthy_str idempotency_key)
  then raise (mk_exn ValueError "Idempotency key is required")
  else
    try_except
      (let url := _base_url o +:+ "/restate/invocation/" +:+ fmt service_name
                  +:+ "/" +:+ fmt handler +:+ "/"
                  +:+ fmt idempotency_key +:+ "/attach" in
       response ← Aiohttp.get w url;
       Aiohttp.raise_for_status response;;
       let content_type := lower (default "" (content_type response)) in
       if contains "application/json" content_type then
         try_except (response_json response)
           [([ClientPayloadError; ValueError], λ _, mret (VStr (text response)))]
       else
         let text := text response in
         if negb (String.eqb text "") then mret (VStr text) else mret (VDict []))
      [([ClientError], λ e,
         logger ERROR ("Failed to attach service " +:+ fmt service_name +:+ " to "
                       +:+ fmt handler +:+ " with idempotency key "
                       +:+ fmt idempotency_key +:+ ": " +:+ exn_str e);;
         raise (mk_exn TerminalError (exn_str e)));
       ([RuntimeError], λ _,
         logger ERROR "Failed to create async session";;
         raise (mk_exn TerminalError "Failed to create async session"));
       ([Exception], λ e,
         logger ERROR ("Failed to attach service " +:+ fmt service_name +:+ " to "
                       +:+ fmt handler +:+ " with idempotency key "
                       +:+ fmt idempotency_key +:+ ": " +:+ exn_str e);;
         raise (mk_exn TerminalError (exn_str e)))].

(** [object_attach]. *)
Definition object_attach (service_name handler key idempotency_key : option string)
    : M value :=
  Aiohttp.refresh_session w;;
  o ← get_self;
  if negb (truthy_str service_name)
  then raise (mk_exn ValueError "Service name is required")
  else if negb (truthy_str handler)
  then raise (mk_exn ValueError "Handler is required")
  else if negb (truthy_str key)
  then raise (mk_exn ValueError "Key is required")
  else if negb (truthy_str idempotency_key)
  then raise (mk_exn ValueError "Idempotency key is required")
  else
    try_except
      (let url := _base_url o +:+ "/restate/invocation/" +:+ fmt service_name
                  +:+ "/" +:+ fmt key +:+ "/" +:+ fmt handler +:+ "/"
                  +:+ fmt idempotency_key +:+ "/attach" in
       response ← Aiohttp.get w url;
       Aiohttp.raise_for_status response;;
       let content_type := lower (default "" (content_type response)) in
       if contains "application/json" content_type then
         try_except (response_json response)
           [([ClientPayloadError; ValueError], λ _, mret (VStr (text response)))]
       else
         let text := text response in
         if negb (String.eqb text "") then mret (VStr text) else mret (VDict []))
      [([ClientError], λ e,
         logger ERROR ("Failed to attach virtual object " +:+ fmt service_name +:+ " to "
                       +:+ fmt handler +:+ " with idempotency key "
                       +:+ fmt idempotency_key +:+ ": " +:+ exn_str e);;
         raise (mk_exn TerminalError (exn_str e)));
       ([RuntimeError], λ _,
         logger ERROR "Failed to create async session";;
         raise (mk_exn TerminalError "Failed to create async session"));
       ([Exception], λ e,
         logger ERROR ("Failed to attach virtual object " +:+ fmt service_name +:+ " to "
                       +:+ fmt handler +:+ " with idempotency key "
                       +:+ fmt idempotency_key +:+ ": " +:+ exn_str e);;
         raise (mk_exn TerminalError (exn_str e)))].

(** [generic_attach]. *)
Definition generic_attach (service_name handler idempotency_key key : option string)
    : M value :=
  if truthy_str key
  then object_attach service_name handler key idempotency_key
  else service_attach service_name handler idempotency_key.

(** [service_output]: the body is decoded whatever the status. *)
Definition service_output (service_name handler idempotency_key : option string)
    : M value :=
  Aiohttp.refresh_session w;;
  o ← get_self;
  if negb (truthy_str service_name)
  then raise (mk_exn ValueError "Service name is required")
  else if negb (truthy_str handler)
  then raise (mk_exn ValueError "Handler is required")
  else if negb (truthy_str idempotency_key)
  then raise (mk_exn ValueError "Idempotency key is required")
  else
    try_except
      (let url := _base_url o +:+ "/restate/invocation/" +:+ fmt service_name
                  +:+ "/" +:+ fmt handler +:+ "/"
                  +:+ fmt idempotency_key +:+ "/output" in
       response ← Aiohttp.get w url;
       let content_type := lower (default "" (content_type response)) in
       if contains "application/json" content_type then
         try_except (response_json response)
           [([ClientPayloadError; ValueError], λ _, mret (VStr (text response)))]
       else
         let text := text response in
         if negb (String.eqb text "") then mret (VStr text) else mret (VDict []))
      [([ClientError], λ e,
         logger ERROR ("Failed to get output of service " +:+ fmt service_name
                       +:+ " with idempotency key " +:+ fmt idempotency_key
                       +:+ ": " +:+ exn_str e);;
         raise (mk_exn TerminalError (exn_str e)));
       ([RuntimeError], λ _,
         logger ERROR "Failed to create async session";;
         raise (mk_exn TerminalError "Failed to create async session"));
       ([Exception], λ e,
         logger ERROR ("Failed to get output of service " +:+ fmt service_name
                       +:+ " with idempotency key " +:+ fmt idempotency_key
                       +:+ ": " +:+ exn_str e);;
         raise (mk_exn TerminalError (exn_str e)))].

(** [object_output]. *)
Definition object_output (service_name handler key idempotency_key : option string)
    : M value :=
  Aiohttp.refresh_session w;;
  o ← get_self;
  if negb (truthy_str service_name)
  then raise (mk_exn ValueError "Service name is required")
  else if negb (truthy_str handler)
  then raise (mk_exn ValueError "Handler is required")
  else if negb (truthy_str key)
  then raise (mk_exn ValueError "Key is required")
  else if negb (truthy_str idempotency_key)
  then raise (mk_exn ValueError "Idempotency key is required")
  else
    try_except
      (let url := _base_url o +:+ "/restate/invocation/" +:+ fmt service_name
                  +:+ "/" +:+ fmt key +:+ "/" +:+ fmt handler +:+ "/"
                  +:+ fmt idempotency_key +:+ "/output" in
       response ← Aiohttp.get w url;
       let content_type := lower (default "" (content_type response)) in
       if contains "application/json" content_type then
         try_except (response_json response)
           [([ClientPayloadError; ValueError], λ _, mret (VStr (text response)))]
       else
         let text := text response in
         if negb (String.eqb text "") then mret (VStr text) else mret (VDict []))
      [([ClientError], λ e,
         logger ERROR ("Failed to get output of virtual object " +:+ fmt service_name
                       +:+ " with idempotency key " +:+ fmt idempotency_key
                       +:+ ": " +:+ exn_str e);;
         raise (mk_exn TerminalError (exn_str e)));
       ([RuntimeError], λ _,
         logger ERROR "Failed to create async session";;
         raise (mk_exn TerminalError "Failed to create async session"));
       ([Exception], λ e,
         logger ERROR ("Failed to get output of virtual object " +:+ fmt service_name
                       +:+ " with idempotency key " +:+ fmt idempotency_key
                       +:+ ": " +:+ exn_str e);;
         raise (mk_exn TerminalError (exn_str e)))].

(** [generic_output]. *)
Definition generic_output (service_name handler idempotency_key key : option string)
    : M value :=
  if truthy_str key
  then object_output service_name handler key idempotency_key
  else service_output service_name handler idempotency_key.

(** [delete_invocation].  The [ClientError] clause reads [e.status],
    which only a [ClientResponseError] has. *)
Definition delete_invocation (invocation_id : string) : M value :=
  o ← get_self;
  try_except
    (Aiohttp.refresh_session w;;
     let url := _base_url o +:+ "/invocation/" +:+ invocation_id in
     response ← Aiohttp.delete w url;
     Aiohttp.raise_for_status response;;
     let content_type := lower (default "" (content_type response)) in
     if contains "application/json" content_type then
       try_except (response_json response)
         [([ClientPayloadError; ValueError], λ _, mret (VStr (text response)))]
     else mret (VStr (text response)))
    [([ClientError], λ e,
       status ← Aiohttp.status_of e;
       if status =? 404 then
         logger WARNING ("Invocation " +:+ invocation_id +:+ " not found");;
         mret VNone
       else
         logger ERROR
           ("Failed to delete invocation " +:+ invocation_id +:+ ": "
            +:+ exn_str e);;
         raise (mk_exn TerminalError (exn_str e)));
     ([RuntimeError], λ _,
       logger ERROR "Failed to create async session";;
       raise (mk_exn TerminalError "Failed to create async session"));
     ([Exception], λ e,
       logger ERROR
         ("Failed to delete invocation " +:+ invocation_id +:+ ": "
          +:+ exn_str e);;
       raise (mk_exn TerminalError (exn_str e)))].

End Methods.

(** The names that the class body of [RestateAsyncClient] binds. *)
Definition methods : list string :=
  ["__init__"; "__getattr__"; "service_send"; "object_send"; "generic_send";
   "service_attach"; "object_attach"; "generic_attach";
   "service_output"; "object_output"; "generic_output";
   "delete_invocation"].

End RestateAsyncClient.

(** ** The vocabulary of the properties *)

Inductive client := Sync | Async.

(** The entry points of [send]. *)
Inductive send_form :=
| ServiceSend (service_name handler : string)
| ObjectSend (service_name handler key : string)
| GenericSend (service_name handler : string) (key : option string).

Definition send (w : world) (c : client) (f : send_form) (payload : pyobj)
    (delay_seconds : Z) (idempotency_key : option string) : M value :=
  match c, f with
  | Sync, ServiceSend s h =>
      RestateClient.service_send w s h payload delay_seconds idempotency_key
  | Sync, ObjectSend s h k =>
      RestateClient.object_send w s h k payload delay_seconds idempotency_key
  | Sync, GenericSend s h key =>
      RestateClient.generic_send w s h payload key delay_seconds idempotency_key
  | Async, ServiceSend s h =>
      RestateAsyncClient.service_send w s h payload delay_seconds idempotency_key
  | Async, ObjectSend s h k =>
      RestateAsyncClient.object_send w s h k payload delay_seconds idempotency_key
  | Async, GenericSend s h key =>
      RestateAsyncClient.generic_send w s h payload key delay_seconds
        idempotency_key
  end.

(** The result, the requests put on the wire and the log of a call made
    on the object [o]. *)
Definition result {A} (c : M A) (o : object) : outcome A := fst (run c o).
Definition wire {A} (c : M A) (o : object) : list request := trace (snd (run c o)).
Definition logged {A} (c : M A) (o : object) : list log_record := log (snd (run c o)).

(** Whether a call finds a session to send on: the synchronous client has
    one or not since its construction; the asynchronous client reuses the
    one it has or builds one, which works or raises. *)
Definition has_session (w : world) (c : client) (o : object) : bool :=
  match c with
  | Sync => bool_decide (is_Some (_session o))
  | Async =>
      bool_decide (is_Some (_async_session o)) ||
      bool_decide (new_async_session w = None)
  end.

(** The URLs as the specification writes them. *)
Definition service_send_url (base service handler : string) : string :=
  base +:+ "/" +:+ service +:+ "/" +:+ handler +:+ "/send".

Definition object_send_url (base service key handler : string) : string :=
  base +:+ "/" +:+ service +:+ "/" +:+ key +:+ "/" +:+ handler +:+ "/send".

(** [generic_send] has a key when it is given one that is not empty. *)
Definition send_url (base : string) (f : send_form) : string :=
  match f with
  | ServiceSend s h => service_send_url base s h
  | ObjectSend s h k => object_send_url base s k h
  | GenericSend s h (Some k) =>
      if String.eqb k "" then service_send_url base s h
      else object_send_url base s k h
  | GenericSend s h None => service_send_url base s h
  end.

(** The query that a delay adds to the URL. *)
Definition delay_query (delay_seconds : Z) : string :=
  if 0 <? delay_seconds
  then "?delay=" +:+ str_of_int delay_seconds +:+ "s"
  else "".

Definition send_headers (idempotency_key : option string) : gmap string string :=
  match idempotency_key with
  | Some k =>
      if String.eqb k "" then {[ "Content-Type" := "application/json" ]}
      else <[ "idempotency-key" := k ]> {[ "Content-Type" := "application/json" ]}
  | None => {[ "Content-Type" := "application/json" ]}
  end.

(** How many times the character [c] occurs in [s]. *)
Fixpoint occurrences (c : ascii) (s : string) : nat :=
  match s with
  | EmptyString => 0%nat
  | String c' s' => ((if Ascii.eqb c c' then 1 else 0) + occurrences c s')%nat
  end.

(** The entry points of [attach] and [output]; an argument is a string or
    [None]. *)
Inductive lookup_op := Attach | Output.

Inductive lookup_form :=
| ServiceLookup (service_name handler idempotency_key : option string)
| ObjectLookup (service_name handler key idempotency_key : option string)
| GenericLookup (service_name handler idempotency_key key : option string).

Definition lookup (w : world) (c : client) (op : lookup_op) (f : lookup_form)
    : M value :=
  match c, op, f with
  | Sync, Attach, ServiceLookup s h ik => RestateClient.service_attach w s h ik
  | Sync, Attach, ObjectLookup s h k ik => RestateClient.object_attach w s h k ik
  | Sync, Attach, GenericLookup s h ik k => RestateClient.generic_attach w s h ik k
  | Sync, Output, ServiceLookup s h ik => RestateClient.service_output w s h ik
  | Sync, Output, ObjectLookup s h k ik => RestateClient.object_output w s h k ik
  | Sync, Output, GenericLookup s h ik k => RestateClient.generic_output w s h ik k
  | Async, Attach, ServiceLookup s h ik => RestateAsyncClient.service_attach w s h ik
  | Async, Attach, ObjectLookup s h k ik => RestateAsyncClient.object_attach w s h k ik
  | Async, Attach, GenericLookup s h ik k => RestateAsyncClient.generic_attach w s h ik k
  | Async, Output, ServiceLookup s h ik => RestateAsyncClient.service_output w s h ik
  | Async, Output, ObjectLookup s h k ik => RestateAsyncClient.object_output w s h k ik
  | Async, Output, GenericLookup s h ik k => RestateAsyncClient.generic_output w s h ik k
  end.

(** A required argument is empty or missing.  The key is required by the
    object forms only. *)
Definition missing_argument (f : lookup_form) : bool :=
  match f with
  | ServiceLookup s h ik =>
      negb (truthy_str s && truthy_str h && truthy_str ik)
  | ObjectLookup s h k ik =>
      negb (truthy_str s && truthy_str h && truthy_str k && truthy_str ik)
  | GenericLookup s h ik _ =>
      negb (truthy_str s && truthy_str h && truthy_str ik)
  end.

Definition is_validation_error (r : outcome value) : Prop :=
  ∃ msg, r = Raise (mk_exn ValueError msg).

Definition op_name (op : lookup_op) : string :=
  match op with Attach => "attach" | Output => "output" end.

(** The URLs of a lookup, as the specification writes them. *)
Definition service_lookup_url (base : string) (op : lookup_op)
    (service handler idempotency_key : string) : string :=
  base +:+ "/restate/invocation/" +:+ service +:+ "/" +:+ handler +:+ "/"
  +:+ idempotency_key +:+ "/" +:+ op_name op.

Definition object_lookup_url (base : string) (op : lookup_op)
    (service key handler idempotency_key : string) : string :=
  base +:+ "/restate/invocation/" +:+ service +:+ "/" +:+ key +:+ "/"
  +:+ handler +:+ "/" +:+ idempotency_key +:+ "/" +:+ op_name op.

Definition lookup_url (base : string) (op : lookup_op) (f : lookup_form) : string :=
  match f with
  | ServiceLookup s h ik => service_lookup_url base op (fmt s) (fmt h) (fmt ik)
  | ObjectLookup s h k ik =>
      object_lookup_url base op (fmt s) (fmt k) (fmt h) (fmt ik)
  | GenericLookup s h ik k =>
      if truthy_str k
      then object_lookup_url base op (fmt s) (fmt k) (fmt h) (fmt ik)
      else service_lookup_url base op (fmt s) (fmt h) (fmt ik)
  end.

(** [delete_invocation] in either client, and its request. *)
Definition delete_invocation (w : world) (c : client) (invocation_id : string)
    : M value :=
  match c with
  | Sync => RestateClient.delete_invocation w invocation_id
  | Async => RestateAsyncClient.delete_invocation w invocation_id
  end.

Definition delete_request (o : object) (invocation_id : string) : request :=
  Request DELETE (_base_url o +:+ "/invocation/" +:+ invocation_id) None ∅.

(** A terminal failure whose message includes the invocation id. *)
Definition is_terminal_failure_naming (invocation_id : string)
    (r : outcome value) : Prop :=
  ∃ msg, r = Raise (mk_exn TerminalError msg) ∧ contains invocation_id msg = true.

(** The failure that the transport hands to [delete_invocation]: the
    exception it raises, or the one that the status of its response
    stands for. *)
Definition upstream_error (c : client) (rep : reply) : option exn :=
  match rep, c with
  | Failed e, _ => Some e
  | Responded r, Sync =>
      if bool_decide (400 ≤ status_code r < 600)
      then Some (Exn HTTPError (status_error_str r) (Some (status_code r)))
      else None
  | Responded r, Async =>
      if bool_decide (400 ≤ status_code r)
      then Some (Exn ClientResponseError (status_error_str r) (Some (status_code r)))
      else None
  end.

(** The class of errors whose HTTP status [delete_invocation] reads. *)
Definition status_class (c : client) : exn_class :=
  match c with Sync => HTTPError | Async => ClientError end.

(** The text of the terminal failure that the asynchronous client makes
    of an error. *)
Definition terminal_text (e : exn) : string :=
  if isinstance e ClientError then exn_str e
  else if isinstance e RuntimeError then "Failed to create async session"
  else exn_str e.

(** What the [except] clauses of the asynchronous operations catch: a
    [ClientError], a [RuntimeError], any other [Exception]. *)
Definition translates (e : exn) : bool :=
  isinstance_any e [ClientError; RuntimeError; Exception].

(** The records that the adapter of the synchronous session logs while
    the request [req] is served; the asynchronous session has no
    adapter. *)
Definition keep_alive_log (w : world) (c : client) (req : request)
    : list log_record :=
  match c with
  | Sync => map TCPKeepAliveAdapter.send_record (adapter_sends w req)
  | Async => []
  end.

(** Dynamic dispatch in either client, with the URL and the request as
    the specification writes them: a key and a payload count when they
    are true. *)
Definition call_handler (w : world) (c : client) (name : string) (data : pyobj)
    (key : option string) : M value :=
  match c with
  | Sync => RestateService._get_handler w name data key
  | Async => RestateAsyncService._get_handler w name data key
  end.

Definition handler_url (base name : string) (key : option string) : string :=
  match key with
  | Some k => if String.eqb k "" then base +:+ "/" +:+ name
              else base +:+ "/" +:+ k +:+ "/" +:+ name
  | None => base +:+ "/" +:+ name
  end.

Definition handler_request (base name : string) (data : pyobj)
    (key : option string) : request :=
  if truthy_obj data
  then Request POST (handler_url base name key) (Some (parse_data data))
         {[ "Content-Type" := "application/json" ]}
  else Request GET (handler_url base name key) None ∅.

(** An operation has a generic, a service and an object form. *)
Definition has_three_forms (methods : list string) (op : string) : Prop :=
  "generic_" +:+ op ∈ methods ∧ "service_" +:+ op ∈ methods ∧
  "object_" +:+ op ∈ methods.

(** *** Concrete worlds and objects *)

Definition ok_response : response :=
  Response 200 (Some "application/json") "{}" (Decoded (VDict [])) "".

Definition status_response (status : Z) (error : string) : response :=
  Response status (Some "text/plain") "" (Decoded VNone) error.

Definition malformed_response : response :=
  Response 200 (Some "application/json") "{oops"
    (DecodeFails (mk_exn JSONDecodeError
       "Expecting property name enclosed in double quotes: line 1 column 2 (char 1)"))
    "".

Definition malformed_response_requests : response :=
  Response 200 (Some "application/json") "{oops"
    (DecodeFails (mk_exn RequestsJSONDecodeError
       "Expecting property name enclosed in double quotes: line 1 column 2 (char 1)"))
    "".

(** Worlds without redirects: the adapter sees the request of the call. *)
Definition answering (r : response) : world :=
  World (λ _, Responded r) (λ req, [req_url req]) None
    ltac:(intros e H; discriminate H).

Definition failing (e : exn) : world :=
  World (λ _, Failed e) (λ req, [req_url req]) None
    ltac:(intros e' H; discriminate H).

Definition pytest_environ : gmap string string :=
  {[ "PYTEST_CURRENT_TEST" := "tests/test_client.py::test_send (call)" ]}.

(** A client built under pytest, and one built outside of it. *)
Definition harness_client : object :=
  self (snd (RestateClient.init (answering ok_response) pytest_environ false
               "http://localhost:8080" None None None (State blank [] []))).

Definition live_client : object :=
  self (snd (RestateClient.init (answering ok_response) ∅ false
               "http://localhost:8080" None None None (State blank [] []))).

(** The proxy that [client.Greeter] gives, in either client. *)
Definition proxy_of (r : outcome object * state) : object :=
  match fst r with
  | Return o => o
  | Raise _ => blank
  end.

Definition live_proxy : object :=
  proxy_of (run (RestateClient.getattr (answering ok_response) ∅ "Greeter")
              live_client).

Definition live_async_proxy : object :=
  proxy_of (run (RestateAsyncClient.getattr (answering ok_response) ∅ "Greeter")
              live_client).

Definition not_found : response :=
  status_response 404
    "404 Client Error: Not Found for url: http://localhost:8080/invocation/inv_1".

Definition forbidden : response :=
  status_response 403
    "403 Client Error: Forbidden for url: http://localhost:8080/invocation/inv_1".

Definition connection_refused : exn :=
  mk_exn ClientConnectionError
    "Cannot connect to host localhost:8080 ssl:default [Connect call failed]".

Definition timed_out : exn := mk_exn TimeoutError "".

Definition order : pyobj := Plain (VDict [("id", VInt 1)]).

Definition cart_total : response :=
  Response 200 (Some "application/json") "[42]" (Decoded (VList [VInt 42])) "".

(** What a [send] puts on the wire: one POST, when the call finds a
    session. *)
Definition sent (w : world) (c : client) (o : object) (url : string)
    (payload : pyobj) (idempotency_key : option string) : list request :=
  if has_session w c o
  then [Request POST url (Some (parse_data payload)) (send_headers idempotency_key)]
  else [].


(** ** More of [base.py]: the singleton metaclass *)

Module Singleton.

(** Instances are shared, so they live in a heap and are handed out by
    reference; [_instances] maps a class to the reference of its
    instance. *)
Record registry := Registry {
  heap : list object;
  _instances : gmap string nat
}.

Definition empty : registry := Registry [] ∅.

(** [Singleton.__call__]: [init] is what the call of the superclass
    runs on the fresh object, with the arguments of the call.  An
    [__init__] that raises leaves the registry as it was. *)
Definition call (cls : string) (init : M unit) (reg : registry)
    : M (nat * registry) :=
  match _instances reg !! cls with
  | None =>
      o ← construct init;
      let ref := length (heap reg) in
      let reg := Registry (heap reg ++ [o]) (<[cls := ref]> (_instances reg)) in
      match _instances reg !! cls with
      | Some ref => mret (ref, reg)
      | None => raise (mk_exn Exception "KeyError")
      end
  | Some ref => mret (ref, reg)
  end.

(** Every registered reference points into the heap. *)
Definition well_formed (reg : registry) : Prop :=
  ∀ cls ref, _instances reg !! cls = Some ref → is_Some (heap reg !! ref).

End Singleton.

(** ** Every operation of a client *)

Inductive operation :=
| DoSend (f : send_form) (payload : pyobj) (delay_seconds : Z)
    (idempotency_key : option string)
| DoLookup (op : lookup_op) (f : lookup_form)
| DoDelete (invocation_id : string)
| DoCall (name : string) (data : pyobj) (key : option string).

Definition operate (w : world) (c : client) (a : operation) : M value :=
  match a with
  | DoSend f payload d ik => send w c f payload d ik
  | DoLookup op f => lookup w c op f
  | DoDelete inv => delete_invocation w c inv
  | DoCall name data key => call_handler w c name data key
  end.

(** The object that a call leaves behind. *)
Definition after {A} (c : M A) (o : object) : object := self (snd (run c o)).

(** The same response with another status. *)
Definition with_status (status : Z) (r : response) : response :=
  Response status (content_type r) (text r) (json r) (status_error_str r).

(** The request of a [send] and of a lookup. *)
Definition send_request (o : object) (f : send_form) (payload : pyobj)
    (delay_seconds : Z) (idempotency_key : option string) : request :=
  Request POST (send_url (_base_url o) f +:+ delay_query delay_seconds)
    (Some (parse_data payload)) (send_headers idempotency_key).

Definition lookup_request (o : object) (op : lookup_op) (f : lookup_form)
    : request :=
  Request GET (lookup_url (_base_url o) op f) None ∅.

(** The response says that its body is JSON. *)
Definition says_json (r : response) : bool :=
  contains "application/json" (lower (default "" (content_type r))).

(** The status that [raise_for_status] of the client's library refuses. *)
Definition error_status (c : client) (status : Z) : bool :=
  match c with
  | Sync => (400 <=? status) && (status <? 600)
  | Async => 400 <=? status
  end.


(** The class of the error that a proxy makes of a status other than
    200. *)
Definition request_failed_class (c : client) : exn_class :=
  match c with Sync => RequestException | Async => ClientError end.

(** *** More concrete worlds and objects *)

Definition created : response :=
  Response 201 (Some "text/plain") "created" (Decoded VNone) "".

Definition empty_ok : response :=
  Response 200 (Some "text/plain") "" (Decoded VNone) "".

Definition no_event_loop : exn := mk_exn RuntimeError "no running event loop".

Definition offline : world :=
  World (λ _, Failed connection_refused) (λ _, []) (Some no_event_loop)
    ltac:(intros e H; injection H as <-; reflexivity).

Definition connection_error : exn :=
  mk_exn ConnectionError "Max retries exceeded with url: /orders/create/send".

Definition cart_lookup : lookup_form :=
  GenericLookup (Some "cart") (Some "getTotal") (Some "idem-123") (Some "user-42").

(** *** What the operations make of an answer *)

(** The outcome of a [send] whose request [req] got the reply [rep], on
    the object [o]; [sends] is what the adapter logged on the way. *)
Definition send_outcome (c : client) (o : object) (sends : list log_record)
    (req : request) (rep : reply) : outcome value * state :=
  match rep with
  | Responded r =>
      if error_status c (status_code r)
      then (Raise (mk_exn TerminalError (status_error_str r)),
            State o [req]
              (sends ++
               [(ERROR, "Failed to send payload to " +:+ req_url req +:+ ": "
                        +:+ status_error_str r)]))
      else (Return VNone,
            State o [req]
              (sends ++
               [(DEBUG, "Sent payload to " +:+ req_url req +:+ " successfully.")]))
  | Failed e =>
      match c with
      | Sync =>
          if isinstance e RequestException
          then (Raise (mk_exn TerminalError (exn_str e)),
                State o [req]
                  (sends ++
                   [(ERROR, "Failed to send payload to " +:+ req_url req +:+ ": "
                            +:+ exn_str e)]))
          else (Raise e, State o [req] sends)
      | Async =>
          if translates e
          then (Raise (mk_exn TerminalError (terminal_text e)),
                State o [req]
                  (sends ++
                   [(ERROR,
                     if isinstance e ClientError || negb (isinstance e RuntimeError)
                     then "Failed to send payload to " +:+ req_url req +:+ ": "
                          +:+ exn_str e
                     else "Failed to create async session")]))
          else (Raise e, State o [req] sends)
      end
  end.

(** What the synchronous client makes of a body: an empty body is the
    empty dict, any other body is decoded as JSON. *)
Definition sync_body (r : response) : outcome value :=
  if String.eqb (text r) "" then Return (VDict [])
  else match json r with
       | Decoded v => Return v
       | DecodeFails e => Raise e
       end.

(** What the asynchronous client makes of a body: JSON when the response
    says so, with the text for a body that does not decode, and the text
    otherwise; [empty_is_dict] tells whether an empty text becomes the
    empty dict. *)
Definition async_body (empty_is_dict : bool) (r : response) : outcome value :=
  if says_json r then
    match json r with
    | Decoded v => Return v
    | DecodeFails e =>
        if isinstance_any e [ClientPayloadError; ValueError]
        then Return (VStr (text r))
        else Raise e
    end
  else if empty_is_dict && String.eqb (text r) "" then Return (VDict [])
  else Return (VStr (text r)).

Definition body (c : client) (empty_is_dict : bool) (r : response) : outcome value :=
  match c with
  | Sync => sync_body r
  | Async => async_body empty_is_dict r
  end.

(** The asynchronous lookups turn every error that their clauses catch
    into a terminal one. *)
Definition translated (c : client) (r : outcome value) : outcome value :=
  match c, r with
  | Async, Raise e =>
      if translates e then Raise (mk_exn TerminalError (terminal_text e))
      else Raise e
  | _, _ => r
  end.

(** The error that [raise_for_status] builds. *)
Definition status_error (c : client) (r : response) : exn :=
  Exn (match c with Sync => HTTPError | Async => ClientResponseError end)
    (status_error_str r) (Some (status_code r)).

(** The result of an [attach] or [output] whose request got the reply
    [rep]. *)
Definition lookup_result (c : client) (op : lookup_op) (rep : reply)
    : outcome value :=
  translated c
    match rep with
    | Failed e => Raise e
    | Responded r =>
        match op with
        | Attach =>
            if error_status c (status_code r) then Raise (status_error c r)
            else body c true r
        | Output => body c true r
        end
    end.

(** What a dynamic call makes of the reply to its request: the result
    and the records that the proxy itself logs. *)
Definition handler_result (c : client) (rep : reply) : outcome value * list log_record :=
  match rep with
  | Failed e => (Raise e, [])
  | Responded r =>
      if status_code r =? 200 then (body c false r, [])
      else (Raise (mk_exn (request_failed_class c)
                     ("Request failed: " +:+ str_of_int (status_code r))),
            [(ERROR, "Response: " +:+ text r)])
  end.

(** *** Relations between an object before and after a call *)

Definition preserving (P : object → object → Prop) {A} (c : M A) : Prop :=
  ∀ st, P (self st) (self (snd (c st))).

(** What no operation changes. *)
Definition same_configuration (o o' : object) : Prop :=
  _base_url o' = _base_url o ∧ _debug o' = _debug o ∧
  _connect_timeout o' = _connect_timeout o ∧
  _keep_alive_interval o' = _keep_alive_interval o ∧
  _keep_alive_timeout o' = _keep_alive_timeout o ∧
  _session o' = _session o ∧
  ∀ s, _async_session o = Some s → _async_session o' = Some s.

Definition same_url (o o' : object) : Prop := _url o' = _url o.

Definition same_async_session (o o' : object) : Prop :=
  _async_session o' = _async_session o.

(** *** The first call of a singleton class *)

Definition first_call : outcome (nat * Singleton.registry) * state :=
  Singleton.call "RestateClient"
    (RestateClient.init (answering ok_response) ∅ false "http://localhost:8080"
       None None None)
    Singleton.empty (State blank [] []).

Definition first_registry : Singleton.registry :=
  match fst first_call with
  | Return (_, reg) => reg
  | Raise _ => Singleton.empty
  end.

(** The first call of the other singleton class, under pytest, on the
    registry that the first call has left. *)
Definition second_call : outcome (nat * Singleton.registry) * state :=
  Singleton.call "RestateAsyncClient"
    (RestateAsyncClient.init (answering ok_response) pytest_environ false
       "http://localhost:8080" None None None)
    first_registry (State blank [] []).

Definition second_registry : Singleton.registry :=
  match fst second_call with
  | Return (_, reg) => reg
  | Raise _ => Singleton.empty
  end.

Definition second_init : M unit :=
  RestateClient.init (answering ok_response) ∅ true "http://other:9090"
    None None None.

Definition caller_options : gmap string TCPKeepAliveAdapter.kwarg :=
  {[ "socket_options" :=
       TCPKeepAliveAdapter.KwSocketOptions
         [(TCPKeepAliveAdapter.SOL_SOCKET, TCPKeepAliveAdapter.SO_KEEPALIVE, 0)] ]}.

(** ** Proof tactics *)

Ltac unfold_monad :=
  unfold mbind, M_bind, mret, M_ret, get_self, modify_self, try_except,
    raise, logger, logger_each, perform, Requests.post, Requests.get,
    Requests.delete, Requests.call, Requests.adapter_log,
    Requests.raise_for_status, response_json,
    Aiohttp.post, Aiohttp.get, Aiohttp.delete, Aiohttp.raise_for_status,
    Aiohttp.refresh_session, Aiohttp.local, Aiohttp.status_of,
    _create_session, _create_async_session in *.

Ltac mstep :=
  first
    [ progress unfold_monad
    | progress cbn -[String.append parse_data lower contains str_of_int
                     TCPKeepAliveAdapter.init] in *
    | case_match; simplify_eq/= ].

Ltac mrun := repeat mstep; try done.

Ltac mopen :=
  unfold wire, result, logged, run;
  repeat (progress
            (unfold_monad;
             cbn -[String.append parse_data lower contains str_of_int
                   TCPKeepAliveAdapter.init] in *)).

Ltac split_truthy :=
  repeat match goal with
  | |- context [truthy_str ?x] => is_var x; destruct (truthy_str x) eqn:?
  end.

Ltac unfold_lookup :=
  cbn [lookup missing_argument has_session lookup_url];
  unfold RestateClient.generic_attach, RestateClient.generic_output,
    RestateAsyncClient.generic_attach, RestateAsyncClient.generic_output;
  unfold RestateClient.service_attach, RestateClient.object_attach,
    RestateClient.service_output, RestateClient.object_output,
    RestateAsyncClient.service_attach, RestateAsyncClient.object_attach,
    RestateAsyncClient.service_output, RestateAsyncClient.object_output.

Ltac with_session w o Hs :=
  first
    [ destruct (_session o); [|discriminate Hs]
    | destruct (_async_session o);
      [|destruct (new_async_session w); [discriminate Hs|]] ].

Ltac without_session w o Hs :=
  first
    [ destruct (_session o); [discriminate Hs|]
    | destruct (_async_session o); [discriminate Hs|];
      destruct (new_async_session w); [|discriminate Hs] ].

Ltac status_other_than_404 Hst :=
  destruct Hst as [status' [Hstatus' Hne']]; [done|];
  first [ injection Hstatus' as <- | rewrite Hstatus' ]; mopen;
  match goal with
  | |- context [?x =? 404] => destruct (Z.eqb_spec x 404); [done|]
  end;
  mrun.

Ltac case_isinstance :=
  repeat (match goal with
          | |- context [isinstance ?e ?c] => destruct (isinstance e c) eqn:?
          end;
          mopen).

Ltac unfold_operations :=
  cbn [operate send lookup delete_invocation call_handler];
  unfold RestateClient.generic_send, RestateAsyncClient.generic_send,
    RestateClient.generic_attach, RestateClient.generic_output,
    RestateAsyncClient.generic_attach, RestateAsyncClient.generic_output;
  unfold RestateClient.service_send, RestateClient.object_send,
    RestateAsyncClient.service_send, RestateAsyncClient.object_send,
    RestateAsyncClient.send_clauses,
    RestateClient.service_attach, RestateClient.object_attach,
    RestateClient.service_output, RestateClient.object_output,
    RestateAsyncClient.service_attach, RestateAsyncClient.object_attach,
    RestateAsyncClient.service_output, RestateAsyncClient.object_output,
    RestateClient.delete_invocation, RestateAsyncClient.delete_invocation,
    RestateService._get_handler, RestateService._request,
    RestateAsyncService._get_handler, RestateAsyncService._request.

(** ** Strings *)

Lemma append_cons c (s1 s2 : string) :
  String c s1 +:+ s2 = String c (s1 +:+ s2).
Proof. reflexivity. Qed.

Lemma append_empty_r (s : string) : s +:+ "" = s.
Proof.
  induction s as [|c s IH]; [done|]. by rewrite append_cons, IH.
Qed.

Lemma occurrences_append c (s1 s2 : string) :
  occurrences c (s1 +:+ s2) = (occurrences c s1 + occurrences c s2)%nat.
Proof.
  induction s1 as [|c' s1 IH]; [done|].
  rewrite append_cons. simpl. rewrite IH. lia.
Qed.

Lemma occurrences_uint c (u : Decimal.uint) :
  (N_of_ascii c <? 48)%N || (57 <? N_of_ascii c)%N = true →
  occurrences c (NilEmpty.string_of_uint u) = 0%nat.
Proof.
  intros Hc. induction u as [|u IH|u IH|u IH|u IH|u IH|u IH|u IH|u IH|u IH|u IH];
    [done|..]; simpl; rewrite IH;
    destruct c as [[] [] [] [] [] [] [] []]; done.
Qed.

Lemma occurrences_str_of_int (d : Z) : occurrences "?" (str_of_int d) = 0%nat.
Proof.
  unfold str_of_int. destruct d as [|q|q]; [done|..]; simpl;
    unfold NilZero.string_of_uint.
  - destruct (Pos.to_uint q) eqn:E; [done|..]; rewrite <- E;
      by apply occurrences_uint.
  - destruct (Pos.to_uint q) eqn:E; [done|..]; rewrite <- E;
      by apply occurrences_uint.
Qed.

Lemma occurrences_delay_query (d : Z) :
  occurrences "?" (delay_query d) = if 0 <? d then 1%nat else 0%nat.
Proof.
  unfold delay_query. destruct (0 <? d); [|done].
  rewrite !occurrences_append, occurrences_str_of_int. done.
Qed.

Lemma send_headers_eq (ik : option string) :
  (if truthy_str ik
   then <[ "idempotency-key" := fmt ik ]>
          ({[ "Content-Type" := "application/json" ]} : gmap string string)
   else {[ "Content-Type" := "application/json" ]}) = send_headers ik.
Proof.
  destruct ik as [k|]; [|done]. cbn. by destruct (String.eqb k "").
Qed.

Lemma translates_Exception e : translates e = isinstance e Exception.
Proof. by destruct e as [[] ? ?]. Qed.

(** ** Construction of the adapter *)

Lemma adapter_init_run (st : state) :
  TCPKeepAliveAdapter.init st =
  (Return tt,
   State (self st) (trace st)
     (log st ++
      [(DEBUG,
        "TCP keep-alive configured: OS will send keep-alive pings after 5s idle, every 5s, max 2 failed probes")])).
Proof. reflexivity. Qed.

(** ** [send] *)

Lemma sync_service_send_wire w o s h p d ik :
  wire (RestateClient.service_send w s h p d ik) o =
  sent w Sync o (service_send_url (_base_url o) s h +:+ delay_query d) p ik.
Proof.
  unfold wire, run, sent, RestateClient.service_send, service_send_url,
    delay_query, has_session.
  rewrite send_headers_eq. mopen.
  destruct (0 <? d); [| rewrite append_empty_r];
    destruct (_session o); mrun.
Qed.

Lemma sync_object_send_wire w o s h k p d ik :
  wire (RestateClient.object_send w s h k p d ik) o =
  sent w Sync o (object_send_url (_base_url o) s k h +:+ delay_query d) p ik.
Proof.
  unfold wire, run, sent, RestateClient.object_send, object_send_url,
    delay_query, has_session.
  rewrite send_headers_eq. mopen.
  destruct (0 <? d); [| rewrite append_empty_r];
    destruct (_session o); mrun.
Qed.

Lemma async_service_send_wire w o s h p d ik :
  wire (RestateAsyncClient.service_send w s h p d ik) o =
  sent w Async o (service_send_url (_base_url o) s h +:+ delay_query d) p ik.
Proof.
  unfold wire, run, sent, RestateAsyncClient.service_send,
    RestateAsyncClient.send_clauses, service_send_url, delay_query, has_session.
  rewrite send_headers_eq. mopen.
  destruct (0 <? d); [| rewrite append_empty_r];
    destruct (_async_session o); destruct (new_async_session w); mrun.
Qed.

Lemma async_object_send_wire w o s h k p d ik :
  wire (RestateAsyncClient.object_send w s h k p d ik) o =
  sent w Async o (object_send_url (_base_url o) s k h +:+ delay_query d) p ik.
Proof.
  unfold wire, run, sent, RestateAsyncClient.object_send,
    RestateAsyncClient.send_clauses, object_send_url, delay_query, has_session.
  rewrite send_headers_eq. mopen.
  destruct (0 <? d); [| rewrite append_empty_r];
    destruct (_async_session o); destruct (new_async_session w); mrun.
Qed.

Lemma send_wire w c f p d ik o :
  wire (send w c f p d ik) o =
  sent w c o (send_url (_base_url o) f +:+ delay_query d) p ik.
Proof.
  destruct c, f as [s h|s h k|s h [k|]]; cbn [send send_url];
    unfold RestateClient.generic_send, RestateAsyncClient.generic_send;
    cbn [truthy_str fmt negb];
    try destruct (String.eqb k ""); cbn [negb];
    auto using sync_service_send_wire, sync_object_send_wire,
      async_service_send_wire, async_object_send_wire.
Qed.

Lemma send_generic w c s h key p d ik o :
  run (send w c (GenericSend s h key) p d ik) o =
  run (send w c (if truthy_str key then ObjectSend s h (fmt key)
                 else ServiceSend s h) p d ik) o.
Proof.
  destruct c; cbn [send];
    unfold RestateClient.generic_send, RestateAsyncClient.generic_send;
    by destruct (truthy_str key).
Qed.

Lemma sync_send_without_session w f p d ik o :
  _session o = None →
  run (send w Sync f p d ik) o = (Return VNone, State o [] []).
Proof.
  intros Hs. destruct f as [s h|s h k|s h key]; rewrite ?send_generic;
    try destruct (truthy_str key); cbn [send];
    unfold RestateClient.service_send, RestateClient.object_send;
    mopen; rewrite Hs; mrun.
Qed.

(** C1.  [service_send], and [generic_send] without a key, issue their POST
    to [{base_url}/{service_name}/{handler}/send]; [object_send], and
    [generic_send] with a key, to
    [{base_url}/{service_name}/{key}/{handler}/send]; in the synchronous
    and in the asynchronous client.  A call that finds a session puts
    exactly this one request on the wire, a call that finds none puts
    nothing; the URL is followed by the delay query only, which is empty
    for the default [delay_seconds = 0]. *)
Theorem send_posts_to_target (w : world) (c : client) (f : send_form)
    (payload : pyobj) (delay_seconds : Z) (idempotency_key : option string)
    (o : object) :
  wire (send w c f payload delay_seconds idempotency_key) o =
    (if has_session w c o
     then [Request POST (send_url (_base_url o) f +:+ delay_query delay_seconds)
             (Some (parse_data payload)) (send_headers idempotency_key)]
     else []) ∧
  wire (send w c f payload 0 idempotency_key) o =
    (if has_session w c o
     then [Request POST (send_url (_base_url o) f)
             (Some (parse_data payload)) (send_headers idempotency_key)]
     else []).
Proof.
  rewrite !send_wire. unfold sent. split; [done|].
  by rewrite append_empty_r.
Qed.

(** The first scenario of the specification: [generic_send("orders",
    "create", {"id": 1})] is one POST to [{base}/orders/create/send] with
    the payload for a body and no [idempotency-key] header. *)
Example generic_send_orders_create :
  ∃ r, wire (send (answering ok_response) Sync (GenericSend "orders" "create" None)
               order 0 None) live_client = [r] ∧
       req_method r = POST ∧
       req_url r = "http://localhost:8080/orders/create/send" ∧
       req_json r = Some (VDict [("id", VInt 1)]) ∧
       req_headers r !! "idempotency-key" = None ∧
       req_headers r !! "Content-Type" = Some "application/json".
Proof. eexists. by vm_compute. Qed.

(** C2.  A [send] (service, object or generic, in either client) that
    finds a session issues exactly one request, a POST; its URL is the
    URL of the target followed by [?delay={delay_seconds}s] when
    [delay_seconds > 0], and the URL of the target alone when
    [delay_seconds] is 0 (or negative); when the target itself has no
    [?], the URL has exactly one [?] in the first case and none in the
    second. *)
Theorem send_delay_suffix (w : world) (c : client) (f : send_form)
    (payload : pyobj) (delay_seconds : Z) (idempotency_key : option string)
    (o : object) :
  has_session w c o = true →
  ∃ r : request,
    wire (send w c f payload delay_seconds idempotency_key) o = [r] ∧
    req_method r = POST ∧
    (0 < delay_seconds →
       req_url r = send_url (_base_url o) f +:+ "?delay="
                   +:+ str_of_int delay_seconds +:+ "s") ∧
    (delay_seconds ≤ 0 → req_url r = send_url (_base_url o) f) ∧
    (occurrences "?" (send_url (_base_url o) f) = 0%nat →
       occurrences "?" (req_url r) = if 0 <? delay_seconds then 1%nat else 0%nat).
Proof.
  intros Hs. rewrite send_wire. unfold sent. rewrite Hs.
  eexists. split; [reflexivity|]. cbn [req_url req_method].
  split; [reflexivity|]. split; [|split].
  - intros Hd. unfold delay_query.
    by destruct (Z.ltb_spec 0 delay_seconds); [|lia].
  - intros Hd. unfold delay_query.
    destruct (Z.ltb_spec 0 delay_seconds); [lia|]. apply append_empty_r.
  - intros Ht. by rewrite occurrences_append, Ht, occurrences_delay_query.
Qed.

Lemma send_delay_suffix_witness :
  has_session (answering ok_response) Sync live_client = true ∧
  has_session (answering ok_response) Async live_client = true ∧
  (∃ r : request,
     wire (send (answering ok_response) Sync (ServiceSend "orders" "create")
             order 10 None) live_client = [r] ∧
     req_url r = "http://localhost:8080/orders/create/send?delay=10s" ∧
     occurrences "?" (req_url r) = 1%nat) ∧
  (∃ r : request,
     wire (send (answering ok_response) Async
             (GenericSend "cart" "add" (Some "user-42")) order 0 None)
       live_client = [r] ∧
     req_url r = "http://localhost:8080/cart/user-42/add/send" ∧
     occurrences "?" (req_url r) = 0%nat).
Proof.
  split; [reflexivity|]. split; [reflexivity|]. split.
  - destruct (send_delay_suffix (answering ok_response) Sync
                (ServiceSend "orders" "create") order 10 None live_client
                eq_refl) as (r & Hw & _ & Hd & _ & Hq).
    exists r. split; [exact Hw|]. split.
    + rewrite Hd by lia. reflexivity.
    + apply Hq. reflexivity.
  - destruct (send_delay_suffix (answering ok_response) Async
                (GenericSend "cart" "add" (Some "user-42")) order 0 None
                live_client eq_refl) as (r & Hw & _ & _ & Hd & Hq).
    exists r. split; [exact Hw|]. split.
    + rewrite Hd by lia. reflexivity.
    + apply Hq. reflexivity.
Defined.

(** A delay of ten seconds. *)
Example send_with_delay :
  map req_url
    (wire (send (answering ok_response) Async (ObjectSend "cart" "add" "user-42")
             order 10 (Some "idem-123")) live_client) =
  ["http://localhost:8080/cart/user-42/add/send?delay=10s"].
Proof. by vm_compute. Qed.

(** ** [attach] and [output] *)

Lemma lookup_missing w c op f o :
  missing_argument f = true → has_session w c o = true →
  is_validation_error (result (lookup w c op f) o) ∧
  wire (lookup w c op f) o = [].
Proof.
  unfold is_validation_error.
  destruct c, op, f; unfold_lookup; split_truthy; cbn [negb andb];
    intros Hm Hs; try discriminate Hm; mopen; with_session w o Hs; mopen;
    (split; [eexists; reflexivity | reflexivity]).
Qed.

Lemma lookup_without_session w c op f o :
  has_session w c o = false →
  wire (lookup w c op f) o = [] ∧
  match c with
  | Sync => run (lookup w c op f) o = (Return VNone, State o [] [])
  | Async => ∃ e, new_async_session w = Some e ∧
                  run (lookup w c op f) o = (Raise e, State o [] [])
  end.
Proof.
  destruct c, op, f; unfold_lookup; split_truthy; intros Hs; mopen;
    without_session w o Hs; mopen; destruct o; eauto.
Qed.

Lemma lookup_wire w c op f o :
  missing_argument f = false → has_session w c o = true →
  wire (lookup w c op f) o = [Request GET (lookup_url (_base_url o) op f) None ∅].
Proof.
  destruct c, op, f; unfold_lookup; split_truthy; cbn [negb andb];
    intros Hm Hs; try discriminate Hm; mopen; with_session w o Hs; mrun.
Qed.

Lemma lookup_generic w c op s h ik key o :
  run (lookup w c op (GenericLookup s h ik key)) o =
  run (lookup w c op (if truthy_str key then ObjectLookup s h key ik
                      else ServiceLookup s h ik)) o.
Proof.
  destruct c, op; cbn [lookup];
    unfold RestateClient.generic_attach, RestateClient.generic_output,
      RestateAsyncClient.generic_attach, RestateAsyncClient.generic_output;
    by destruct (truthy_str key).
Qed.

Lemma object_lookup_empty_key w c op s h ik o :
  has_session w c o = true →
  missing_argument (ServiceLookup s h ik) = false →
  result (lookup w c op (ObjectLookup s h (Some "") ik)) o =
  Raise (mk_exn ValueError "Key is required").
Proof.
  destruct c, op; unfold_lookup; split_truthy; cbn [negb andb];
    intros Hs Hm; try discriminate Hm; mopen; with_session w o Hs; mrun.
Qed.

(** C3, as the code has it.  A call to [attach] or [output] (service,
    object or generic form, in either client) with an empty or missing
    [service_name], [handler] or [idempotency_key] (or, in the object
    forms, [key]) issues no network request, and it raises an
    input-validation error when it finds a session.  The synchronous
    client without a session returns [None] before it validates. *)
Theorem lookup_validation (w : world) (c : client) (op : lookup_op)
    (f : lookup_form) (o : object) :
  missing_argument f = true →
  wire (lookup w c op f) o = [] ∧
  (has_session w c o = true →
     is_validation_error (result (lookup w c op f) o)) ∧
  (c = Sync → has_session w c o = false →
     result (lookup w c op f) o = Return VNone).
Proof.
  intros Hm. destruct (has_session w c o) eqn:Hs.
  - destruct (lookup_missing w c op f o Hm Hs) as [Hv Hw]. done.
  - destruct (lookup_without_session w c op f o Hs) as [Hw Hr].
    split; [done|]. split; [done|]. intros -> _. unfold result.
    by rewrite Hr.
Qed.

Lemma lookup_validation_witness :
  missing_argument
    (ObjectLookup (Some "cart") (Some "getTotal") None (Some "idem-123")) = true ∧
  wire (lookup (answering ok_response) Async Output
          (ObjectLookup (Some "cart") (Some "getTotal") None (Some "idem-123")))
    live_client = [] ∧
  is_validation_error
    (result (lookup (answering ok_response) Async Output
               (ObjectLookup (Some "cart") (Some "getTotal") None
                  (Some "idem-123")))
       live_client).
Proof.
  split; [reflexivity|].
  destruct (lookup_validation (answering ok_response) Async Output
              (ObjectLookup (Some "cart") (Some "getTotal") None
                 (Some "idem-123"))
              live_client eq_refl) as (Hw & Hv & _).
  split; [exact Hw | apply Hv; reflexivity].
Defined.

(** Under pytest the synchronous [service_attach] with an empty service
    name returns [None]: no input-validation error is raised. *)
Lemma attach_in_harness_skips_validation :
  missing_argument (ServiceLookup (Some "") (Some "greet") (Some "idem-1")) = true ∧
  result (lookup (answering ok_response) Sync Attach
            (ServiceLookup (Some "") (Some "greet") (Some "idem-1")))
    harness_client = Return VNone ∧
  ¬ is_validation_error
      (result (lookup (answering ok_response) Sync Attach
                 (ServiceLookup (Some "") (Some "greet") (Some "idem-1")))
         harness_client).
Proof.
  split; [reflexivity|]. split; [by vm_compute|].
  intros [msg H]. vm_compute in H. discriminate H.
Qed.

(** The second scenario: [generic_output("cart", "getTotal", "idem-123",
    key="user-42")] is one GET and returns the decoded body; the one log
    record is the adapter's. *)
Example generic_output_cart_total :
  run (lookup (answering cart_total) Sync Output
         (GenericLookup (Some "cart") (Some "getTotal") (Some "idem-123")
            (Some "user-42"))) live_client =
  (Return (VList [VInt 42]),
   State live_client
     [Request GET
        "http://localhost:8080/restate/invocation/cart/user-42/getTotal/idem-123/output"
        None ∅]
     [(DEBUG,
       "Keep-alive: Sending request to http://localhost:8080/restate/invocation/cart/user-42/getTotal/idem-123/output (TCP keep-alive pings configured and active)")]).
Proof. by vm_compute. Qed.

(** ** [delete_invocation] *)

Lemma sync_delete_without_session w inv o :
  _session o = None →
  run (delete_invocation w Sync inv) o =
  (Raise (mk_exn AttributeError "'NoneType' object has no attribute 'delete'"),
   State o [] []).
Proof.
  intros Hs. cbn [delete_invocation]. unfold RestateClient.delete_invocation.
  mopen. rewrite Hs. mrun.
Qed.

(** C4.  When the server answers the DELETE of [delete_invocation] with
    HTTP 404, the call returns [None] and does not raise, in the
    synchronous and in the asynchronous client; the one request is the
    DELETE, and the log ends with the warning, the one record that the
    client writes: before it come only the records of the keep-alive
    adapter of the synchronous session. *)
Theorem delete_not_found (w : world) (c : client) (o : object)
    (inv : string) (r : response) :
  has_session w c o = true →
  server w (delete_request o inv) = Responded r →
  status_code r = 404 →
  result (delete_invocation w c inv) o = Return VNone ∧
  wire (delete_invocation w c inv) o = [delete_request o inv] ∧
  logged (delete_invocation w c inv) o =
    (keep_alive_log w c (delete_request o inv) ++
     [(WARNING, "Invocation " +:+ inv +:+ " not found")])%list.
Proof.
  unfold delete_request, keep_alive_log. intros Hs Hr H404.
  destruct c; cbn [delete_invocation has_session] in *;
    unfold RestateClient.delete_invocation,
      RestateAsyncClient.delete_invocation;
    mopen; with_session w o Hs; mopen; rewrite Hr; mopen; rewrite H404;
    mrun.
Qed.

Lemma delete_not_found_witness :
  has_session (answering not_found) Sync live_client = true ∧
  server (answering not_found) (delete_request live_client "inv_1")
    = Responded not_found ∧
  status_code not_found = 404 ∧
  result (delete_invocation (answering not_found) Sync "inv_1") live_client
    = Return VNone ∧
  logged (delete_invocation (answering not_found) Sync "inv_1") live_client
    = [(DEBUG,
        "Keep-alive: Sending request to http://localhost:8080/invocation/inv_1 (TCP keep-alive pings configured and active)");
       (WARNING, "Invocation inv_1 not found")] ∧
  result (delete_invocation (answering not_found) Async "inv_1") live_client
    = Return VNone ∧
  logged (delete_invocation (answering not_found) Async "inv_1") live_client
    = [(WARNING, "Invocation inv_1 not found")].
Proof.
  split; [reflexivity|]. split; [reflexivity|]. split; [reflexivity|].
  destruct (delete_not_found (answering not_found) Sync live_client "inv_1"
              not_found eq_refl eq_refl eq_refl) as (Hr & _ & Hl).
  destruct (delete_not_found (answering not_found) Async live_client "inv_1"
              not_found eq_refl eq_refl eq_refl) as (Hr' & _ & Hl').
  split; [exact Hr|]. split; [rewrite Hl; reflexivity|].
  split; [exact Hr'|]. rewrite Hl'. reflexivity.
Defined.

(** C5, as the code has it.  When the DELETE of [delete_invocation] is
    answered with a refused status other than 404, or the transport
    raises an exception (which, when it is of the class whose status the
    handler reads, [HTTPError] in the synchronous client and
    [aiohttp.ClientError] in the asynchronous one, carries a status
    other than 404), the call raises after its one request.  The
    synchronous client re-raises the exception of the transport
    unchanged.  The asynchronous client raises a [TerminalError] whose
    message is the text of the upstream error (the fixed text "Failed to
    create async session" for a [RuntimeError]); an exception that is
    not an [Exception] passes unchanged.  The client writes one error
    record that names the invocation id and the upstream text, except
    that the synchronous client writes none for an [HTTPError] or for an
    exception that is not a [RequestException], and the asynchronous one
    writes the fixed text for a [RuntimeError] and nothing for an
    exception that it does not translate. *)
Theorem delete_failure (w : world) (c : client) (o : object) (inv : string)
    (e : exn) :
  has_session w c o = true →
  upstream_error c (server w (delete_request o inv)) = Some e →
  (isinstance e (status_class c) = true →
     ∃ s, exn_status e = Some s ∧ s ≠ 404) →
  result (delete_invocation w c inv) o =
    Raise (match c with
           | Sync => e
           | Async =>
               if isinstance e Exception
               then mk_exn TerminalError (terminal_text e)
               else e
           end) ∧
  wire (delete_invocation w c inv) o = [delete_request o inv] ∧
  logged (delete_invocation w c inv) o =
    (keep_alive_log w c (delete_request o inv) ++
     match c with
    | Sync =>
        if isinstance e HTTPError then []
        else if isinstance e RequestException
        then [(ERROR, "Failed to delete invocation " +:+ inv +:+ ": "
                      +:+ exn_str e)]
        else []
    | Async =>
        if isinstance e ClientError
        then [(ERROR, "Failed to delete invocation " +:+ inv +:+ ": "
                      +:+ exn_str e)]
        else if isinstance e RuntimeError
        then [(ERROR, "Failed to create async session")]
        else if isinstance e Exception
        then [(ERROR, "Failed to delete invocation " +:+ inv +:+ ": "
                      +:+ exn_str e)]
        else []
     end)%list.
Proof.
  unfold delete_request, terminal_text, keep_alive_log. intros Hs Hup Hst.
  destruct c; cbn [delete_invocation has_session status_class] in *;
    unfold RestateClient.delete_invocation,
      RestateAsyncClient.delete_invocation;
    mopen; with_session w o Hs; mopen;
    destruct (server w _) as [r|e']; cbn [upstream_error] in Hup;
    try (case_bool_decide; [|discriminate Hup]);
    injection Hup as <-; cbn [exn_status exn_str isinstance exn_cls mro] in *.
  - assert ((400 <=? status_code r) && (status_code r <? 600) = true) as ->
      by (apply andb_true_intro; split; [apply Z.leb_le | apply Z.ltb_lt]; lia).
    mopen. status_other_than_404 Hst. by rewrite app_nil_r.
  - mopen. destruct (isinstance e' HTTPError) eqn:Hh.
    + status_other_than_404 Hst. by rewrite app_nil_r.
    + cbn. destruct (isinstance e' RequestException); mrun.
      by rewrite app_nil_r.
  - assert ((400 <=? status_code r) = true) as -> by (apply Z.leb_le; lia).
    mopen. status_other_than_404 Hst.
  - mopen. destruct (isinstance e' ClientError) eqn:Hh.
    + status_other_than_404 Hst.
      all: by destruct e' as [[] ? ?].
    + cbn. destruct (isinstance e' RuntimeError) eqn:Hr; [mrun|].
      * by destruct e' as [[] ? ?].
      * cbn. destruct (isinstance e' Exception); mrun.
  - assert ((400 <=? status_code r) = true) as -> by (apply Z.leb_le; lia).
    mopen. status_other_than_404 Hst.
  - mopen. destruct (isinstance e' ClientError) eqn:Hh.
    + status_other_than_404 Hst.
      all: by destruct e' as [[] ? ?].
    + cbn. destruct (isinstance e' RuntimeError) eqn:Hr; [mrun|].
      * by destruct e' as [[] ? ?].
      * cbn. destruct (isinstance e' Exception); mrun.
Qed.

Lemma delete_failure_witness :
  has_session (answering forbidden) Async live_client = true ∧
  upstream_error Async
    (server (answering forbidden) (delete_request live_client "inv_1"))
    = Some (Exn ClientResponseError (status_error_str forbidden) (Some 403)) ∧
  result (delete_invocation (answering forbidden) Async "inv_1") live_client
    = Raise (mk_exn TerminalError (status_error_str forbidden)) ∧
  logged (delete_invocation (answering forbidden) Async "inv_1") live_client
    = [(ERROR,
        "Failed to delete invocation inv_1: 403 Client Error: Forbidden for url: http://localhost:8080/invocation/inv_1")] ∧
  result (delete_invocation (answering forbidden) Sync "inv_1") live_client
    = Raise (Exn HTTPError (status_error_str forbidden) (Some 403)) ∧
  logged (delete_invocation (answering forbidden) Sync "inv_1") live_client
    = [(DEBUG,
        "Keep-alive: Sending request to http://localhost:8080/invocation/inv_1 (TCP keep-alive pings configured and active)")] ∧
  result (delete_invocation (failing connection_error) Sync "inv_1") live_client
    = Raise connection_error ∧
  logged (delete_invocation (failing connection_error) Sync "inv_1") live_client
    = [(DEBUG,
        "Keep-alive: Sending request to http://localhost:8080/invocation/inv_1 (TCP keep-alive pings configured and active)");
       (ERROR,
        "Failed to delete invocation inv_1: Max retries exceeded with url: /orders/create/send")] ∧
  result (delete_invocation (failing (mk_exn CancelledError "")) Async "inv_1")
    live_client
    = Raise (mk_exn CancelledError "") ∧
  logged (delete_invocation (failing (mk_exn CancelledError "")) Async "inv_1")
    live_client = [].
Proof.
  split; [reflexivity|]. split; [reflexivity|].
  destruct (delete_failure (answering forbidden) Async live_client "inv_1"
              (Exn ClientResponseError (status_error_str forbidden) (Some 403))
              eq_refl eq_refl) as (Hr & _ & Hl).
  { intros _. exists 403. split; [reflexivity | lia]. }
  destruct (delete_failure (answering forbidden) Sync live_client "inv_1"
              (Exn HTTPError (status_error_str forbidden) (Some 403))
              eq_refl eq_refl) as (Hr' & _ & Hl').
  { intros _. exists 403. split; [reflexivity | lia]. }
  destruct (delete_failure (failing connection_error) Sync live_client "inv_1"
              connection_error eq_refl eq_refl) as (Hr1 & _ & Hl1).
  { intros H. discriminate H. }
  destruct (delete_failure (failing (mk_exn CancelledError "")) Async
              live_client "inv_1" (mk_exn CancelledError "") eq_refl eq_refl)
    as (Hr2 & _ & Hl2).
  { intros H. discriminate H. }
  split; [exact Hr|]. split; [rewrite Hl; reflexivity|].
  split; [exact Hr'|]. split; [rewrite Hl'; reflexivity|].
  split; [exact Hr1|]. split; [rewrite Hl1; reflexivity|].
  split; [exact Hr2|]. rewrite Hl2. reflexivity.
Defined.

(** The synchronous [delete_invocation] answered with 403 raises the
    [HTTPError] of the transport, and the asynchronous one that times out
    raises a [TerminalError] with an empty message: neither is a terminal
    failure that names the invocation. *)
Lemma delete_failure_is_not_terminal_naming_id :
  result (delete_invocation (answering forbidden) Sync "inv_1") live_client
    = Raise (Exn HTTPError (status_error_str forbidden) (Some 403)) ∧
  ¬ is_terminal_failure_naming "inv_1"
      (result (delete_invocation (answering forbidden) Sync "inv_1")
         live_client) ∧
  result (delete_invocation (failing timed_out) Async "inv_1") live_client
    = Raise (mk_exn TerminalError "") ∧
  ¬ is_terminal_failure_naming "inv_1"
      (result (delete_invocation (failing timed_out) Async "inv_1")
         live_client).
Proof.
  split; [by vm_compute|]. split.
  { intros (msg & H & _). vm_compute in H. discriminate H. }
  split; [by vm_compute|].
  intros (msg & H & Hc). vm_compute in H. injection H as <-.
  vm_compute in Hc. discriminate Hc.
Qed.

(** The asynchronous [delete_invocation] reads [e.status] of every
    [aiohttp.ClientError]; one without a status, such as a refused
    connection, ends in the [AttributeError] of that read. *)
Example async_delete_connection_refused :
  result (delete_invocation (failing connection_refused) Async "inv_1")
    live_client
  = Raise (mk_exn AttributeError
             "'ClientConnectionError' object has no attribute 'status'").
Proof. by vm_compute. Qed.

(** ** The dynamic dispatcher *)

Lemma handler_wire w c name data key o :
  wire (call_handler w c name data key) o =
  if has_session w c o then [handler_request (_base_url o) name data key]
  else [].
Proof.
  unfold handler_request, handler_url.
  destruct c; cbn [call_handler has_session];
    unfold RestateService._get_handler, RestateService._request,
      RestateAsyncService._get_handler, RestateAsyncService._request;
    destruct key as [k|]; cbn [truthy_str fmt];
    try destruct (String.eqb k ""); cbn [negb];
    destruct (truthy_obj data); mopen;
    first [ destruct (_session o)
          | destruct (_async_session o); [|destruct (new_async_session w)] ];
    mrun.
Qed.

Lemma async_handler_malformed_json w name data key o r e :
  has_session w Async o = true →
  server w (handler_request (_base_url o) name data key) = Responded r →
  status_code r = 200 →
  contains "application/json" (lower (default "" (content_type r))) = true →
  json r = DecodeFails e →
  isinstance_any e [ClientPayloadError; ValueError] = true →
  result (call_handler w Async name data key) o = Return (VStr (text r)).
Proof.
  unfold handler_request, handler_url. intros Hs Hr H200 Hct Hj He.
  cbn [call_handler has_session] in *.
  unfold RestateAsyncService._get_handler, RestateAsyncService._request.
  destruct key as [k|]; cbn [truthy_str fmt] in *;
    try destruct (String.eqb k ""); cbn [negb] in *;
    destruct (truthy_obj data); mopen; with_session w o Hs; mopen;
    rewrite Hr; mopen; rewrite H200; mopen; rewrite Hct, Hj; mopen;
    cbn in He; rewrite He; mrun.
Qed.

Lemma sync_handler_malformed_json w name data key o r e :
  has_session w Sync o = true →
  server w (handler_request (_base_url o) name data key) = Responded r →
  status_code r = 200 →
  text r ≠ "" →
  json r = DecodeFails e →
  result (call_handler w Sync name data key) o = Raise e.
Proof.
  unfold handler_request, handler_url. intros Hs Hr H200 Ht Hj.
  cbn [call_handler has_session] in *.
  unfold RestateService._get_handler, RestateService._request.
  apply String.eqb_neq in Ht.
  destruct key as [k|]; cbn [truthy_str fmt] in *;
    try destruct (String.eqb k ""); cbn [negb] in *;
    destruct (truthy_obj data); mopen; with_session w o Hs; mopen;
    rewrite Hr; mopen; rewrite H200; mopen; rewrite Ht, Hj; mrun.
Qed.

(** C8, as the code has it.  Calling the handler synthesized for a name
    puts one request on the wire when the proxy finds a session: to
    [{base}/{key}/{name}] when the key is true (given and not empty) and
    to [{base}/{name}] otherwise; a POST with the parsed payload when the
    payload is true (given and not empty), a GET without a body
    otherwise. *)
Theorem handler_targets_url (w : world) (c : client) (name : string)
    (data : pyobj) (key : option string) (o : object) :
  wire (call_handler w c name data key) o =
    (if has_session w c o
     then [if truthy_obj data
           then Request POST (handler_url (_base_url o) name key)
                  (Some (parse_data data))
                  {[ "Content-Type" := "application/json" ]}
           else Request GET (handler_url (_base_url o) name key) None ∅]
     else []) ∧
  handler_url (_base_url o) name key =
    (if truthy_str key then _base_url o +:+ "/" +:+ fmt key +:+ "/" +:+ name
     else _base_url o +:+ "/" +:+ name).
Proof.
  split.
  - rewrite handler_wire. unfold handler_request.
    by destruct (has_session w c o), (truthy_obj data).
  - destruct key as [k|]; [|done]. cbn. by destruct (String.eqb k "").
Qed.

(** A payload that is given but empty is sent as a GET without a body, and
    a key that is given but empty adds no segment to the URL. *)
Lemma empty_payload_is_sent_as_get :
  Plain (VDict []) ≠ Plain VNone ∧
  (¬ ∃ r, r ∈ wire (call_handler (answering ok_response) Sync "greet"
                      (Plain (VDict [])) None) live_proxy ∧
          req_method r = POST) ∧
  wire (call_handler (answering ok_response) Sync "greet" (Plain (VDict [])) None)
    live_proxy = [Request GET "http://localhost:8080/Greeter/greet" None ∅] ∧
  wire (call_handler (answering ok_response) Async "greet" (Plain (VDict [])) None)
    live_async_proxy = [Request GET "http://localhost:8080/Greeter/greet" None ∅] ∧
  wire (call_handler (answering ok_response) Sync "greet" (Plain VNone) (Some ""))
    live_proxy = [Request GET "http://localhost:8080/Greeter/greet" None ∅].
Proof.
  split; [done|]. split.
  { intros (r & Hin & Hpost). vm_compute in Hin.
    apply list_elem_of_singleton in Hin. by subst r. }
  split; [by vm_compute|]. split; by vm_compute.
Qed.

(** C6, as the code has it.  When the response to a dynamic-dispatch call
    has status 200 and a body that does not decode as JSON, the
    asynchronous proxy returns the raw text of the body if the content
    type holds [application/json]; the synchronous proxy, which does not
    look at the content type, lets the decode error of a non-empty body
    through. *)
Theorem malformed_json_body (w : world) (c : client) (name : string)
    (data : pyobj) (key : option string) (o : object) (r : response)
    (e : exn) :
  has_session w c o = true →
  server w (handler_request (_base_url o) name data key) = Responded r →
  status_code r = 200 →
  json r = DecodeFails e →
  match c with
  | Async =>
      contains "application/json" (lower (default "" (content_type r))) = true →
      isinstance_any e [ClientPayloadError; ValueError] = true →
      result (call_handler w c name data key) o = Return (VStr (text r))
  | Sync =>
      text r ≠ "" →
      result (call_handler w c name data key) o = Raise e
  end.
Proof.
  intros Hs Hr H200 Hj. destruct c.
  - intros Ht. by eapply sync_handler_malformed_json.
  - intros Hct He. by eapply async_handler_malformed_json.
Qed.

Lemma malformed_json_body_witness :
  has_session (answering malformed_response) Async live_async_proxy = true ∧
  server (answering malformed_response)
    (handler_request (_base_url live_async_proxy) "greet" (Plain VNone) None)
    = Responded malformed_response ∧
  status_code malformed_response = 200 ∧
  result (call_handler (answering malformed_response) Async "greet"
            (Plain VNone) None) live_async_proxy
    = Return (VStr "{oops") ∧
  result (call_handler (answering malformed_response_requests) Sync "greet"
            order (Some "user-42")) live_proxy
    = Raise (mk_exn RequestsJSONDecodeError
               "Expecting property name enclosed in double quotes: line 1 column 2 (char 1)").
Proof.
  split; [reflexivity|]. split; [reflexivity|]. split; [reflexivity|]. split.
  - apply (malformed_json_body (answering malformed_response) Async "greet"
             (Plain VNone) None live_async_proxy malformed_response
             (mk_exn JSONDecodeError
                "Expecting property name enclosed in double quotes: line 1 column 2 (char 1)"));
      reflexivity.
  - apply (malformed_json_body (answering malformed_response_requests) Sync
             "greet" order (Some "user-42") live_proxy
             malformed_response_requests
             (mk_exn RequestsJSONDecodeError
                "Expecting property name enclosed in double quotes: line 1 column 2 (char 1)"));
      [reflexivity | reflexivity | reflexivity | reflexivity | discriminate].
Defined.

(** The synchronous proxy answered with content type [application/json]
    and a body that is not JSON raises the decode error. *)
Lemma sync_handler_raises_decode_error :
  content_type malformed_response_requests = Some "application/json" ∧
  status_code malformed_response_requests = 200 ∧
  result (call_handler (answering malformed_response_requests) Sync "greet"
            (Plain VNone) None) live_proxy
    = Raise (mk_exn RequestsJSONDecodeError
               "Expecting property name enclosed in double quotes: line 1 column 2 (char 1)") ∧
  result (call_handler (answering malformed_response_requests) Sync "greet"
            (Plain VNone) None) live_proxy
    ≠ Return (VStr (text malformed_response_requests)).
Proof.
  split; [reflexivity|]. split; [reflexivity|]. split; [by vm_compute|].
  intros H. vm_compute in H. discriminate H.
Qed.

(** ** The generic forms and the absent session *)

(** C7, as the code has it.  [send], [attach] and [output] have a generic,
    a service and an object form in both clients, and the generic form
    does exactly what the object form does when its key is true (given and
    not empty) and exactly what the service form does otherwise; the only
    method for deletion is [delete_invocation], which has one form. *)
Theorem generic_forms_dispatch_on_key (w : world) (c : client) (o : object) :
  Forall (λ op, has_three_forms RestateClient.methods op ∧
                has_three_forms RestateAsyncClient.methods op)
    ["send"; "attach"; "output"] ∧
  List.filter (contains "delete") RestateClient.methods = ["delete_invocation"] ∧
  List.filter (contains "delete") RestateAsyncClient.methods = ["delete_invocation"] ∧
  (∀ s h payload key d ik,
     run (send w c (GenericSend s h key) payload d ik) o =
     run (send w c (if truthy_str key then ObjectSend s h (fmt key)
                    else ServiceSend s h) payload d ik) o) ∧
  (∀ op s h ik key,
     run (lookup w c op (GenericLookup s h ik key)) o =
     run (lookup w c op (if truthy_str key then ObjectLookup s h key ik
                         else ServiceLookup s h ik)) o).
Proof.
  split; [|split; [done|split; [done|split]]].
  - repeat constructor; by apply (bool_decide_unpack _).
  - intros. apply send_generic.
  - intros. apply lookup_generic.
Qed.

(** Neither client has a generic, a service or an object form of
    deletion. *)
Lemma delete_has_one_form :
  (¬ has_three_forms RestateClient.methods "delete") ∧
  (¬ has_three_forms RestateAsyncClient.methods "delete") ∧
  ("generic_delete" ∉ RestateClient.methods) ∧
  ("generic_delete" ∉ RestateAsyncClient.methods).
Proof.
  assert ("generic_delete" ∉ RestateClient.methods) as H1
    by (by apply (bool_decide_unpack _)).
  assert ("generic_delete" ∉ RestateAsyncClient.methods) as H2
    by (by apply (bool_decide_unpack _)).
  split; [by intros [H _]|]. split; [by intros [H _]|]. done.
Qed.

Lemma init_in_harness w environ debug base_url ct kai kat st :
  in_test_harness environ = true →
  _session (self (snd (RestateBase_init w environ debug base_url ct kai kat st)))
    = None.
Proof.
  intros H. unfold RestateBase_init, RestateBase_init_probing. mopen.
  rewrite H. mrun.
Qed.

Lemma init_probing_in_harness w probe environ debug base_url ct kai kat st :
  in_test_harness environ = true →
  RestateBase_init_probing w probe environ debug base_url ct kai kat st =
  RestateBase_init w environ debug base_url ct kai kat st.
Proof.
  intros H. unfold RestateBase_init, RestateBase_init_probing. mopen.
  by rewrite H.
Qed.

(** C9.  With the session of the synchronous client absent, as it is
    under pytest, every form of [send], [attach] and [output] returns
    [None] without raising, issuing and logging nothing, whereas
    [delete_invocation], which does not test the session, fails with an
    [AttributeError] before any request. *)
Theorem absent_session_guard (w : world) (o : object) :
  _session o = None →
  (∀ f payload d ik,
     run (send w Sync f payload d ik) o = (Return VNone, State o [] [])) ∧
  (∀ op f, run (lookup w Sync op f) o = (Return VNone, State o [] [])) ∧
  (∀ inv,
     run (delete_invocation w Sync inv) o =
     (Raise (mk_exn AttributeError "'NoneType' object has no attribute 'delete'"),
      State o [] [])) ∧
  (∀ environ debug base_url ct kai kat st,
     in_test_harness environ = true →
     _session (self (snd (RestateBase_init w environ debug base_url ct kai kat st)))
       = None).
Proof.
  intros Hs. split; [|split; [|split]].
  - intros. by apply sync_send_without_session.
  - intros. apply (lookup_without_session w Sync op f o).
    cbn. by rewrite Hs.
  - intros. by apply sync_delete_without_session.
  - intros. by apply init_in_harness.
Qed.

Lemma absent_session_guard_witness :
  _session harness_client = None ∧
  run (send (answering ok_response) Sync (ServiceSend "orders" "create")
         order 0 None) harness_client
    = (Return VNone, State harness_client [] []) ∧
  run (delete_invocation (answering ok_response) Sync "inv_1") harness_client
    = (Raise (mk_exn AttributeError "'NoneType' object has no attribute 'delete'"),
       State harness_client [] []).
Proof.
  split; [reflexivity|].
  destruct (absent_session_guard (answering ok_response) harness_client eq_refl)
    as (Hsend & _ & Hdelete & _).
  split; [apply Hsend | apply Hdelete].
Defined.

(** C10.  [generic_send], [generic_attach] and [generic_output] with the
    empty string for a key do exactly what the service form does, and
    what they do without a key; with a session and the other arguments in
    place the request of the service form goes out, while the object form
    with that key raises the key-validation error. *)
Theorem empty_key_is_no_key (w : world) (c : client) (o : object) :
  (∀ s h payload d ik,
     run (send w c (GenericSend s h (Some "")) payload d ik) o =
       run (send w c (ServiceSend s h) payload d ik) o ∧
     run (send w c (GenericSend s h (Some "")) payload d ik) o =
       run (send w c (GenericSend s h None) payload d ik) o) ∧
  (∀ op s h ik,
     run (lookup w c op (GenericLookup s h ik (Some ""))) o =
       run (lookup w c op (ServiceLookup s h ik)) o ∧
     run (lookup w c op (GenericLookup s h ik (Some ""))) o =
       run (lookup w c op (GenericLookup s h ik None)) o) ∧
  (∀ op s h ik,
     has_session w c o = true →
     missing_argument (ServiceLookup s h ik) = false →
     wire (lookup w c op (GenericLookup s h ik (Some ""))) o =
       [Request GET
          (service_lookup_url (_base_url o) op (fmt s) (fmt h) (fmt ik))
          None ∅] ∧
     result (lookup w c op (ObjectLookup s h (Some "") ik)) o =
       Raise (mk_exn ValueError "Key is required")).
Proof.
  split; [|split].
  - intros. by rewrite !send_generic.
  - intros. by rewrite !lookup_generic.
  - intros op s h ik Hs Hm. split.
    + by rewrite (lookup_wire w c op (GenericLookup s h ik (Some "")) o).
    + by apply object_lookup_empty_key.
Qed.

Lemma empty_key_is_no_key_witness :
  has_session (answering cart_total) Sync live_client = true ∧
  missing_argument
    (ServiceLookup (Some "cart") (Some "getTotal") (Some "idem-123")) = false ∧
  wire (lookup (answering cart_total) Sync Output
          (GenericLookup (Some "cart") (Some "getTotal") (Some "idem-123")
             (Some ""))) live_client
    = [Request GET
         "http://localhost:8080/restate/invocation/cart/getTotal/idem-123/output"
         None ∅] ∧
  result (lookup (answering cart_total) Sync Output
            (ObjectLookup (Some "cart") (Some "getTotal") (Some "")
               (Some "idem-123"))) live_client
    = Raise (mk_exn ValueError "Key is required").
Proof.
  split; [reflexivity|]. split; [reflexivity|].
  destruct (empty_key_is_no_key (answering cart_total) Sync live_client)
    as (_ & _ & H).
  apply (H Output (Some "cart") (Some "getTotal") (Some "idem-123"));
    reflexivity.
Defined.

(** ** Further properties of [send] *)

Lemma sync_send_run w f p d ik o s :
  _session o = Some s →
  run (send w Sync f p d ik) o =
  send_outcome Sync o (keep_alive_log w Sync (send_request o f p d ik))
    (send_request o f p d ik) (server w (send_request o f p d ik)).
Proof.
  intros Hs. unfold send_request, send_outcome, keep_alive_log.
  destruct f as [sv h|sv h k|sv h key]; rewrite ?send_generic;
    [| |destruct key as [k|]; cbn [truthy_str fmt send_url];
        [destruct (String.eqb k "")|]; cbn [negb]];
    cbn [send send_url];
    unfold RestateClient.service_send, RestateClient.object_send,
      service_send_url, object_send_url, delay_query;
    rewrite <- send_headers_eq; mopen; rewrite Hs;
    (destruct (0 <? d); [| rewrite append_empty_r]); mopen;
    destruct (server w _) as [r|e]; mopen;
    try destruct ((400 <=? status_code r) && (status_code r <? 600));
    try destruct (isinstance e RequestException); mrun; by destruct o.
Qed.

Lemma send_effects w c f p d ik o :
  has_session w c o = true →
  let out := send_outcome c o (keep_alive_log w c (send_request o f p d ik))
               (send_request o f p d ik)
               (server w (send_request o f p d ik)) in
  result (send w c f p d ik) o = fst out ∧
  wire (send w c f p d ik) o = trace (snd out) ∧
  logged (send w c f p d ik) o = log (snd out).
Proof.
  intros Hs. destruct c.
  - cbn in Hs. destruct (_session o) as [s|] eqn:E; [|done].
    unfold result, wire, logged. rewrite (sync_send_run w f p d ik o s E).
    done.
  - unfold send_request, send_outcome, terminal_text, translates, keep_alive_log.
    destruct f as [sv h|sv h k|sv h key]; unfold result, wire, logged;
      rewrite ?send_generic;
      [| |destruct key as [k|]; cbn [truthy_str fmt send_url];
          [destruct (String.eqb k "")|]; cbn [negb]];
      cbn [send send_url has_session] in *;
      unfold RestateAsyncClient.service_send, RestateAsyncClient.object_send,
        RestateAsyncClient.send_clauses,
        service_send_url, object_send_url, delay_query;
      rewrite <- send_headers_eq; mopen; with_session w o Hs; mopen;
      (destruct (0 <? d); [| rewrite append_empty_r]); mopen;
      destruct (server w _) as [r|e]; mopen;
      try destruct (400 <=? status_code r);
      try (destruct (isinstance e ClientError); cbn;
           [|destruct (isinstance e RuntimeError); cbn;
             [|destruct (isinstance e Exception); cbn]]);
      mrun.
Qed.

(** X1.  Every request of a [send] carries the parsed payload as its JSON
    body and the header [Content-Type: application/json]; it carries the
    header [idempotency-key] exactly when the idempotency key is given
    and not empty, with that key for a value; it has no other header. *)
Theorem send_headers_on_wire (w : world) (c : client) (f : send_form)
    (payload : pyobj) (d : Z) (ik : option string) (o : object) :
  Forall (λ r,
      req_json r = Some (parse_data payload) ∧
      req_headers r !! "Content-Type" = Some "application/json" ∧
      req_headers r !! "idempotency-key" = (if truthy_str ik then ik else None) ∧
      ∀ name, is_Some (req_headers r !! name) →
              name = "Content-Type" ∨ name = "idempotency-key")
    (wire (send w c f payload d ik) o).
Proof.
  rewrite send_wire. unfold sent.
  destruct (has_session w c o); constructor; [|constructor].
  cbn [req_json req_headers]. split; [done|]. unfold send_headers.
  destruct ik as [k|]; cbn [truthy_str];
    [destruct (String.eqb_spec k "") as [->|Hk]|]; cbn [negb].
  - split; [done|]. split; [done|].
    intros name [x Hx]. apply lookup_singleton_Some in Hx as [<- _]. by left.
  - split; [by rewrite lookup_insert_ne|].
    split; [by rewrite lookup_insert_eq|].
    intros name [x Hx]. apply lookup_insert_Some in Hx as [[<- _]|[_ Hx]];
      [by right|]. apply lookup_singleton_Some in Hx as [<- _]. by left.
  - split; [done|]. split; [done|].
    intros name [x Hx]. apply lookup_singleton_Some in Hx as [<- _]. by left.
Qed.

(** X2.  A [send] that finds a session returns [None] exactly when the
    transport answers with a status that [raise_for_status] accepts
    (below 400, or from 600 on for the synchronous client). *)
Theorem send_returns_none_iff_accepted (w : world) (c : client) (f : send_form)
    (payload : pyobj) (d : Z) (ik : option string) (o : object) :
  has_session w c o = true →
  (result (send w c f payload d ik) o = Return VNone ↔
   ∃ r, server w (send_request o f payload d ik) = Responded r ∧
        error_status c (status_code r) = false).
Proof.
  intros Hs. destruct (send_effects w c f payload d ik o Hs) as (-> & _ & _).
  unfold send_outcome. destruct (server w _) as [r|e].
  - destruct (error_status c (status_code r)) eqn:E; cbn; split.
    + done.
    + intros (r' & [= <-] & E'). congruence.
    + eauto.
    + done.
  - split; [|by intros (r & [=] & _)].
    by destruct c;
      [destruct (isinstance e RequestException) | destruct (translates e)].
Qed.

Lemma send_returns_none_iff_accepted_witness :
  has_session (answering ok_response) Sync live_client = true ∧
  result (send (answering ok_response) Sync (ServiceSend "orders" "create")
            order 0 None) live_client = Return VNone.
Proof.
  split; [reflexivity|].
  apply (send_returns_none_iff_accepted (answering ok_response) Sync
           (ServiceSend "orders" "create") order 0 None live_client eq_refl).
  exists ok_response. split; reflexivity.
Defined.

(** X3.  A [send] whose transport fails (a refused status, or an
    exception: any [Exception] for the asynchronous client, a
    [RequestException] for the synchronous one) raises a [TerminalError]
    with the text of the upstream error, after its one request; the
    client writes one error record, which the records of the keep-alive
    adapter of the synchronous session precede. *)
Theorem send_failure_is_terminal (w : world) (c : client) (f : send_form)
    (payload : pyobj) (d : Z) (ik : option string) (o : object) (e : exn) :
  has_session w c o = true →
  upstream_error c (server w (send_request o f payload d ik)) = Some e →
  isinstance e (match c with Sync => RequestException | Async => Exception end)
    = true →
  result (send w c f payload d ik) o =
    Raise (mk_exn TerminalError
             (match c with Sync => exn_str e | Async => terminal_text e end)) ∧
  wire (send w c f payload d ik) o = [send_request o f payload d ik] ∧
  ∃ msg, logged (send w c f payload d ik) o =
           (keep_alive_log w c (send_request o f payload d ik)
            ++ [(ERROR, msg)])%list.
Proof.
  intros Hs Hup Hc.
  destruct (send_effects w c f payload d ik o Hs) as (-> & -> & ->).
  unfold send_outcome, upstream_error, error_status, terminal_text in *.
  destruct (server w _) as [r|e'].
  - destruct c; case_bool_decide as Hr; try discriminate Hup;
      injection Hup as <-; cbn [exn_str].
    + assert ((400 <=? status_code r) && (status_code r <? 600) = true) as ->
        by (apply andb_true_intro; split; [apply Z.leb_le | apply Z.ltb_lt]; lia).
      cbn. eauto.
    + assert ((400 <=? status_code r) = true) as -> by (apply Z.leb_le; lia).
      cbn. eauto.
  - injection Hup as <-.
    destruct c; cbn in Hc; [rewrite Hc | rewrite translates_Exception, Hc];
      cbn; eauto.
Qed.

Lemma send_failure_is_terminal_witness :
  has_session (answering forbidden) Async live_client = true ∧
  upstream_error Async
    (server (answering forbidden)
       (send_request live_client (ServiceSend "orders" "create") order 0 None))
    = Some (Exn ClientResponseError (status_error_str forbidden) (Some 403)) ∧
  result (send (answering forbidden) Async (ServiceSend "orders" "create")
            order 0 None) live_client
    = Raise (mk_exn TerminalError (status_error_str forbidden)) ∧
  result (send (failing connection_error) Sync (ServiceSend "orders" "create")
            order 0 None) live_client
    = Raise (mk_exn TerminalError (exn_str connection_error)).
Proof.
  split; [reflexivity|]. split; [reflexivity|]. split.
  - apply (send_failure_is_terminal (answering forbidden) Async
             (ServiceSend "orders" "create") order 0 None live_client
             (Exn ClientResponseError (status_error_str forbidden) (Some 403)));
      reflexivity.
  - apply (send_failure_is_terminal (failing connection_error) Sync
             (ServiceSend "orders" "create") order 0 None live_client
             connection_error); reflexivity.
Defined.

(** X4.  The synchronous [send] translates [RequestException]s only: any
    other exception of the transport is raised unchanged, and the client
    logs nothing: the log holds the records of the keep-alive adapter
    only. *)
Theorem sync_send_passes_other_errors (w : world) (f : send_form)
    (payload : pyobj) (d : Z) (ik : option string) (o : object) (e : exn) :
  has_session w Sync o = true →
  server w (send_request o f payload d ik) = Failed e →
  isinstance e RequestException = false →
  result (send w Sync f payload d ik) o = Raise e ∧
  logged (send w Sync f payload d ik) o =
    keep_alive_log w Sync (send_request o f payload d ik).
Proof.
  intros Hs Hr He.
  destruct (send_effects w Sync f payload d ik o Hs) as (-> & _ & ->).
  unfold send_outcome. by rewrite Hr, He.
Qed.

Lemma sync_send_passes_other_errors_witness :
  has_session (failing timed_out) Sync live_client = true ∧
  isinstance timed_out RequestException = false ∧
  result (send (failing timed_out) Sync (ObjectSend "cart" "add" "user-42")
            order 0 None) live_client = Raise timed_out ∧
  logged (send (failing timed_out) Sync (ObjectSend "cart" "add" "user-42")
            order 0 None) live_client
    = [(DEBUG,
        "Keep-alive: Sending request to http://localhost:8080/cart/user-42/add/send (TCP keep-alive pings configured and active)")].
Proof.
  split; [reflexivity|]. split; [reflexivity|].
  destruct (sync_send_passes_other_errors (failing timed_out)
              (ObjectSend "cart" "add" "user-42") order 0 None live_client
              timed_out eq_refl eq_refl eq_refl) as [Hr Hl].
  split; [exact Hr|]. rewrite Hl. reflexivity.
Defined.

(** X5.  When the asynchronous client has no session and building one
    raises a [RuntimeError], every [send] raises the [TerminalError]
    "Failed to create async session", logs that text and issues no
    request; the object is unchanged. *)
Theorem async_send_without_session (w : world) (f : send_form)
    (payload : pyobj) (d : Z) (ik : option string) (o : object) (e : exn) :
  _async_session o = None →
  new_async_session w = Some e →
  exn_cls e = RuntimeError →
  run (send w Async f payload d ik) o =
  (Raise (mk_exn TerminalError "Failed to create async session"),
   State o [] [(ERROR, "Failed to create async session")]).
Proof.
  intros Hs Hn He. destruct e as [cls str st]. cbn in He. subst cls.
  destruct f as [sv h|sv h k|sv h key]; rewrite ?send_generic;
    try destruct (truthy_str key); cbn [send];
    unfold RestateAsyncClient.service_send, RestateAsyncClient.object_send,
      RestateAsyncClient.send_clauses;
    mopen; rewrite Hs, Hn; mopen; by destruct o.
Qed.

Lemma async_send_without_session_witness :
  _async_session harness_client = None ∧
  new_async_session offline = Some no_event_loop ∧
  run (send offline Async (GenericSend "cart" "add" (Some "user-42")) order 10
         None) harness_client
  = (Raise (mk_exn TerminalError "Failed to create async session"),
     State harness_client [] [(ERROR, "Failed to create async session")]).
Proof.
  split; [reflexivity|]. split; [reflexivity|].
  apply (async_send_without_session offline
           (GenericSend "cart" "add" (Some "user-42")) order 10 None
           harness_client no_event_loop); reflexivity.
Defined.

(** ** Further properties of [attach] and [output] *)

Lemma lookup_result_eq w c op f o :
  missing_argument f = false → has_session w c o = true →
  result (lookup w c op f) o = lookup_result c op (server w (lookup_request o op f)).
Proof.
  unfold lookup_request, lookup_result, translated, translates, body, sync_body,
    async_body, status_error, says_json, terminal_text.
  destruct c, op, f; unfold_lookup; split_truthy; cbn [negb andb];
    intros Hm Hs; try discriminate Hm; mopen; with_session w o Hs; mopen;
    unfold service_lookup_url, object_lookup_url; cbn [op_name];
    destruct (server w _) as [r|e]; mopen.
  all: try destruct ((400 <=? status_code r) && (status_code r <? 600));
    try destruct (400 <=? status_code r); mopen.
  all: try destruct (String.eqb (text r) ""); mopen.
  all: try destruct (contains "application/json" _); mopen.
  all: try destruct (json r) as [v|e]; mopen.
  all: case_isinstance.
  all: done.
Qed.

Lemma lookup_wire_cases w c op f o :
  wire (lookup w c op f) o =
  if has_session w c o && negb (missing_argument f)
  then [lookup_request o op f] else [].
Proof.
  destruct (has_session w c o) eqn:Hs; cbn.
  - destruct (missing_argument f) eqn:Hm; cbn.
    + by apply lookup_missing.
    + by apply lookup_wire.
  - by apply lookup_without_session.
Qed.

(** X8.  [output] does not look at the HTTP status: the same answer with
    any other status gives the same result, in both clients. *)
Theorem output_ignores_status (w w' : world) (c : client) (f : lookup_form)
    (o : object) (r : response) (status : Z) :
  missing_argument f = false →
  has_session w c o = true → has_session w' c o = true →
  server w (lookup_request o Output f) = Responded r →
  server w' (lookup_request o Output f) = Responded (with_status status r) →
  result (lookup w' c Output f) o = result (lookup w c Output f) o.
Proof.
  intros Hm Hs Hs' Hr Hr'. rewrite !lookup_result_eq, Hr, Hr' by done.
  by destruct c.
Qed.

Lemma output_ignores_status_witness :
  missing_argument cart_lookup = false ∧
  has_session (answering cart_total) Sync live_client = true ∧
  has_session (answering (with_status 500 cart_total)) Sync live_client = true ∧
  result (lookup (answering (with_status 500 cart_total)) Sync Output cart_lookup)
    live_client
  = result (lookup (answering cart_total) Sync Output cart_lookup) live_client.
Proof.
  split; [reflexivity|]. split; [reflexivity|]. split; [reflexivity|].
  apply (output_ignores_status (answering cart_total)
           (answering (with_status 500 cart_total)) Sync cart_lookup live_client
           cart_total 500); reflexivity.
Defined.

(** X9.  [attach] with valid arguments answered with a refused status
    raises, after its one request: the [HTTPError] of the transport in
    the synchronous client, a [TerminalError] with its text in the
    asynchronous one. *)
Theorem attach_refuses_error_status (w : world) (c : client) (f : lookup_form)
    (o : object) (r : response) :
  missing_argument f = false →
  has_session w c o = true →
  server w (lookup_request o Attach f) = Responded r →
  error_status c (status_code r) = true →
  result (lookup w c Attach f) o =
    Raise (match c with
           | Sync => Exn HTTPError (status_error_str r) (Some (status_code r))
           | Async => mk_exn TerminalError (status_error_str r)
           end) ∧
  wire (lookup w c Attach f) o = [lookup_request o Attach f].
Proof.
  intros Hm Hs Hr He. rewrite lookup_wire by done. split; [|done].
  rewrite lookup_result_eq, Hr by done. unfold lookup_result. rewrite He.
  by destruct c.
Qed.

Lemma attach_refuses_error_status_witness :
  missing_argument cart_lookup = false ∧
  has_session (answering forbidden) Sync live_client = true ∧
  error_status Sync (status_code forbidden) = true ∧
  result (lookup (answering forbidden) Sync Attach cart_lookup) live_client
    = Raise (Exn HTTPError (status_error_str forbidden) (Some 403)).
Proof.
  split; [reflexivity|]. split; [reflexivity|]. split; [reflexivity|].
  apply (attach_refuses_error_status (answering forbidden) Sync cart_lookup
           live_client forbidden); reflexivity.
Defined.

(** X10.  An [attach] or [output] answered with an empty body returns the
    empty dict: in the synchronous client always, in the asynchronous
    one when the content type does not say JSON ([attach] given an
    accepted status). *)
Theorem lookup_empty_body (w : world) (c : client) (op : lookup_op)
    (f : lookup_form) (o : object) (r : response) :
  missing_argument f = false →
  has_session w c o = true →
  server w (lookup_request o op f) = Responded r →
  (op = Attach → error_status c (status_code r) = false) →
  (c = Async → says_json r = false) →
  text r = "" →
  result (lookup w c op f) o = Return (VDict []).
Proof.
  intros Hm Hs Hr He Hj Ht. rewrite lookup_result_eq, Hr by done.
  unfold lookup_result, body, sync_body, async_body. rewrite Ht.
  destruct op; [rewrite He by done|]; destruct c; try done;
    by rewrite Hj.
Qed.

Lemma lookup_empty_body_witness :
  missing_argument cart_lookup = false ∧
  has_session (answering empty_ok) Async live_client = true ∧
  says_json empty_ok = false ∧ text empty_ok = "" ∧
  result (lookup (answering empty_ok) Async Attach cart_lookup) live_client
    = Return (VDict []).
Proof.
  split; [reflexivity|]. split; [reflexivity|]. split; [reflexivity|].
  split; [reflexivity|].
  apply (lookup_empty_body (answering empty_ok) Async Attach cart_lookup
           live_client empty_ok); reflexivity.
Defined.



(** A cancellation that reaches the awaited GET of an asynchronous
    [output] is not translated. *)
Example async_output_cancelled :
  result (lookup (failing (mk_exn CancelledError "")) Async Output cart_lookup)
    live_client = Raise (mk_exn CancelledError "").
Proof. by vm_compute. Qed.

(** X12.  A synchronous [attach] or [output] whose transport raises lets
    that exception through unchanged, after its one request. *)
Theorem sync_lookup_passes_errors_through (w : world) (op : lookup_op)
    (f : lookup_form) (o : object) (e : exn) :
  missing_argument f = false →
  has_session w Sync o = true →
  server w (lookup_request o op f) = Failed e →
  result (lookup w Sync op f) o = Raise e ∧
  wire (lookup w Sync op f) o = [lookup_request o op f].
Proof.
  intros Hm Hs Hr. rewrite lookup_wire by done. split; [|done].
  by rewrite lookup_result_eq, Hr.
Qed.

Lemma sync_lookup_passes_errors_through_witness :
  missing_argument cart_lookup = false ∧
  has_session (failing connection_error) Sync live_client = true ∧
  result (lookup (failing connection_error) Sync Attach cart_lookup) live_client
    = Raise connection_error.
Proof.
  split; [reflexivity|]. split; [reflexivity|].
  apply (sync_lookup_passes_errors_through (failing connection_error) Attach
           cart_lookup live_client connection_error); reflexivity.
Defined.

(** ** Further properties of the dynamic dispatcher and of [delete_invocation] *)

Lemma handler_result_eq w c name data key o :
  has_session w c o = true →
  result (call_handler w c name data key) o =
    fst (handler_result c (server w (handler_request (_base_url o) name data key))) ∧
  logged (call_handler w c name data key) o =
    (keep_alive_log w c (handler_request (_base_url o) name data key) ++
     snd (handler_result c
            (server w (handler_request (_base_url o) name data key))))%list.
Proof.
  unfold handler_result, handler_request, handler_url, body, sync_body, async_body,
    says_json, keep_alive_log.
  intros Hs.
  destruct c; cbn [call_handler has_session request_failed_class] in *;
    unfold RestateService._get_handler, RestateService._request,
      RestateAsyncService._get_handler, RestateAsyncService._request;
    destruct key as [k|]; cbn [truthy_str fmt] in *;
    try destruct (String.eqb k ""); cbn [negb] in *;
    destruct (truthy_obj data); mopen; with_session w o Hs; mopen;
    destruct (server w _) as [r|e]; mopen; rewrite ?app_nil_r; try done;
    destruct (status_code r =? 200); mopen; rewrite ?app_nil_r; try done.
  all: try destruct (String.eqb (text r) ""); mopen; rewrite ?app_nil_r; try done.
  all: try destruct (contains "application/json" _); mopen; try done.
  all: try destruct (json r) as [v|e]; mopen; rewrite ?app_nil_r; try done.
  all: case_isinstance.
  all: done.
Qed.

(** X13.  A dynamic call answered with any status other than 200 (a 201
    or a 204 as well) raises "Request failed: {status}", a
    [RequestException] in the synchronous proxy and a [ClientError] in
    the asynchronous one; the proxy writes one error record, the body of
    the response, which the records of the keep-alive adapter of the
    synchronous session precede. *)
Theorem handler_rejects_other_status (w : world) (c : client) (name : string)
    (data : pyobj) (key : option string) (o : object) (r : response) :
  has_session w c o = true →
  server w (handler_request (_base_url o) name data key) = Responded r →
  status_code r ≠ 200 →
  result (call_handler w c name data key) o =
    Raise (mk_exn (request_failed_class c)
             ("Request failed: " +:+ str_of_int (status_code r))) ∧
  logged (call_handler w c name data key) o =
    (keep_alive_log w c (handler_request (_base_url o) name data key) ++
     [(ERROR, "Response: " +:+ text r)])%list.
Proof.
  intros Hs Hr Hne.
  destruct (handler_result_eq w c name data key o Hs) as [-> ->].
  rewrite Hr. unfold handler_result.
  by destruct (Z.eqb_spec (status_code r) 200).
Qed.

Lemma handler_rejects_other_status_witness :
  has_session (answering created) Sync live_proxy = true ∧
  status_code created ≠ 200 ∧
  result (call_handler (answering created) Sync "greet" order None) live_proxy
    = Raise (mk_exn RequestException "Request failed: 201") ∧
  logged (call_handler (answering created) Sync "greet" order None) live_proxy
    = [(DEBUG,
        "Keep-alive: Sending request to http://localhost:8080/Greeter/greet (TCP keep-alive pings configured and active)");
       (ERROR, "Response: created")].
Proof.
  split; [reflexivity|]. split; [discriminate|].
  destruct (handler_rejects_other_status (answering created) Sync "greet" order
              None live_proxy created eq_refl eq_refl) as [Hr Hl];
    [discriminate|].
  split; [exact Hr|]. rewrite Hl. reflexivity.
Defined.

(** X14.  A dynamic call answered with 200 returns the body as its proxy
    decodes it; for an empty body that does not say JSON this is the
    empty dict in the synchronous proxy and the empty string in the
    asynchronous one. *)
Theorem handler_decodes_ok_answer (w : world) (c : client) (name : string)
    (data : pyobj) (key : option string) (o : object) (r : response) :
  has_session w c o = true →
  server w (handler_request (_base_url o) name data key) = Responded r →
  status_code r = 200 →
  result (call_handler w c name data key) o = body c false r ∧
  (text r = "" → says_json r = false →
   result (call_handler w c name data key) o =
     Return (match c with Sync => VDict [] | Async => VStr "" end)).
Proof.
  intros Hs Hr H200.
  destruct (handler_result_eq w c name data key o Hs) as [-> _].
  rewrite Hr. unfold handler_result. rewrite H200. cbn. split; [done|].
  intros Ht Hj. unfold body, sync_body, async_body. rewrite Ht, Hj.
  by destruct c.
Qed.

Lemma handler_decodes_ok_answer_witness :
  has_session (answering empty_ok) Async live_async_proxy = true ∧
  status_code empty_ok = 200 ∧
  result (call_handler (answering empty_ok) Async "greet" (Plain VNone) None)
    live_async_proxy = Return (VStr "") ∧
  result (call_handler (answering empty_ok) Sync "greet" (Plain VNone) None)
    live_proxy = Return (VDict []).
Proof.
  split; [reflexivity|]. split; [reflexivity|]. split.
  - apply (handler_decodes_ok_answer (answering empty_ok) Async "greet"
             (Plain VNone) None live_async_proxy empty_ok); reflexivity.
  - apply (handler_decodes_ok_answer (answering empty_ok) Sync "greet"
             (Plain VNone) None live_proxy empty_ok); reflexivity.
Defined.

(** X15.  A dynamic call on a synchronous proxy without a session (as
    under pytest) issues nothing and fails with an [AttributeError]:
    [_request] returns [None] and the handler reads [response.text];
    [_url] has been written. *)
Theorem sync_handler_without_session (w : world) (name : string)
    (data : pyobj) (key : option string) (o : object) :
  _session o = None →
  run (call_handler w Sync name data key) o =
  (Raise (mk_exn AttributeError "'NoneType' object has no attribute 'text'"),
   State (set_url (handler_url (_base_url o) name key) o) [] []).
Proof.
  intros Hs. cbn [call_handler].
  unfold RestateService._get_handler, RestateService._request, handler_url.
  destruct key as [k|]; cbn [truthy_str fmt];
    try destruct (String.eqb k ""); cbn [negb];
    mopen; rewrite Hs; mrun.
Qed.

Lemma sync_handler_without_session_witness :
  _session harness_client = None ∧
  result (call_handler (answering ok_response) Sync "greet" order (Some "user-42"))
    harness_client
  = Raise (mk_exn AttributeError "'NoneType' object has no attribute 'text'").
Proof.
  split; [reflexivity|]. unfold result.
  rewrite (sync_handler_without_session (answering ok_response) "greet" order
             (Some "user-42") harness_client eq_refl).
  reflexivity.
Defined.

Lemma handler_sets_url w c name data key o :
  _url (after (call_handler w c name data key) o) =
  handler_url (_base_url o) name key.
Proof.
  unfold after, handler_url.
  destruct c; cbn [call_handler];
    unfold RestateService._get_handler, RestateService._request,
      RestateAsyncService._get_handler, RestateAsyncService._request;
    destruct key as [k|]; cbn [truthy_str fmt];
    try destruct (String.eqb k ""); cbn [negb];
    destruct (truthy_obj data); mopen;
    first [ destruct (_session o)
          | destruct (_async_session o); [|destruct (new_async_session w)] ];
    mrun.
Qed.

Lemma delete_wire w c inv o :
  wire (delete_invocation w c inv) o =
  if has_session w c o then [delete_request o inv] else [].
Proof.
  unfold delete_request.
  destruct c; cbn [delete_invocation has_session];
    unfold RestateClient.delete_invocation,
      RestateAsyncClient.delete_invocation; mopen;
    first [ destruct (_session o)
          | destruct (_async_session o); [|destruct (new_async_session w)] ];
    mopen; try done.
  all: destruct (server w _) as [r|e]; mopen.
  all: try destruct ((400 <=? status_code r) && (status_code r <? 600));
    try destruct (400 <=? status_code r); mopen.
  all: try destruct (String.eqb (text r) ""); mopen.
  all: try destruct (contains "application/json" _); mopen.
  all: try destruct (json r) as [v|e]; mopen.
  all: case_isinstance.
  all: mrun.
Qed.

(** X16.  [delete_invocation] answered with an accepted status returns
    the body as its client decodes it, whenever it decodes, and the
    client logs nothing: the log holds the records of the keep-alive
    adapter of the synchronous session only. *)
Theorem delete_returns_body (w : world) (c : client) (inv : string)
    (o : object) (r : response) (v : value) :
  has_session w c o = true →
  server w (delete_request o inv) = Responded r →
  error_status c (status_code r) = false →
  body c false r = Return v →
  result (delete_invocation w c inv) o = Return v ∧
  logged (delete_invocation w c inv) o =
    keep_alive_log w c (delete_request o inv).
Proof.
  unfold delete_request, body, sync_body, async_body, says_json, error_status,
    keep_alive_log.
  intros Hs Hr He Hb.
  destruct c; cbn [delete_invocation has_session] in *;
    unfold RestateClient.delete_invocation,
      RestateAsyncClient.delete_invocation;
    mopen; with_session w o Hs; mopen; rewrite Hr; mopen; rewrite He; mopen.
  all: try destruct (String.eqb (text r) ""); mopen.
  all: try destruct (contains "application/json" _); mopen.
  all: try destruct (json r) as [v'|e]; mopen.
  all: try (destruct (isinstance e ClientPayloadError); mopen;
            try destruct (isinstance e ValueError); mopen).
  all: by simplify_eq.
Qed.

Lemma delete_returns_body_witness :
  has_session (answering cart_total) Sync live_client = true ∧
  error_status Sync (status_code cart_total) = false ∧
  body Sync false cart_total = Return (VList [VInt 42]) ∧
  result (delete_invocation (answering cart_total) Sync "inv_1") live_client
    = Return (VList [VInt 42]) ∧
  logged (delete_invocation (answering cart_total) Sync "inv_1") live_client
    = [(DEBUG,
        "Keep-alive: Sending request to http://localhost:8080/invocation/inv_1 (TCP keep-alive pings configured and active)")].
Proof.
  split; [reflexivity|]. split; [reflexivity|]. split; [reflexivity|].
  destruct (delete_returns_body (answering cart_total) Sync "inv_1" live_client
              cart_total (VList [VInt 42]) eq_refl eq_refl eq_refl eq_refl)
    as [Hr Hl].
  split; [exact Hr|]. rewrite Hl. reflexivity.
Defined.

(** X6.  No operation of either client (send, attach, output, delete, a
    dynamic call) issues more than one request, and none issues a request
    when it finds no session. *)
Theorem one_request_per_call (w : world) (c : client) (a : operation)
    (o : object) :
  (length (wire (operate w c a) o) ≤ 1)%nat ∧
  (has_session w c o = false → wire (operate w c a) o = []).
Proof.
  destruct a as [f p d ik|op f|inv|name data key]; cbn [operate].
  - rewrite send_wire. unfold sent. destruct (has_session w c o); cbn; split; (lia || done).
  - rewrite lookup_wire_cases.
    destruct (has_session w c o), (missing_argument f); cbn; split; (lia || done).
  - rewrite delete_wire. destruct (has_session w c o); cbn; split; (lia || done).
  - rewrite handler_wire. destruct (has_session w c o); cbn; split; (lia || done).
Qed.

Lemma one_request_per_call_witness :
  has_session (answering ok_response) Sync harness_client = false ∧
  wire (operate (answering ok_response) Sync (DoDelete "inv_1")) harness_client
    = [].
Proof.
  split; [reflexivity|].
  apply (one_request_per_call (answering ok_response) Sync (DoDelete "inv_1")
           harness_client). reflexivity.
Defined.

(** ** What the operations keep *)

Section Preserving.
Context (P : object → object → Prop) `{!Reflexive P, !Transitive P}.

Lemma preserving_ret {A} (a : A) : preserving P (mret a).
Proof. intros st. cbn. reflexivity. Qed.

Lemma preserving_raise {A} (e : exn) : preserving P (@raise A e).
Proof. intros st. cbn. reflexivity. Qed.

Lemma preserving_logger lvl msg : preserving P (logger lvl msg).
Proof. intros st. cbn. reflexivity. Qed.

Lemma preserving_logger_each records : preserving P (logger_each records).
Proof. intros st. cbn. reflexivity. Qed.

Lemma preserving_get_self : preserving P get_self.
Proof. intros st. cbn. reflexivity. Qed.

Lemma preserving_perform w req : preserving P (perform w req).
Proof. intros st. unfold perform. destruct (server w req); cbn; reflexivity. Qed.

Lemma preserving_modify f : (∀ o, P o (f o)) → preserving P (modify_self f).
Proof. intros H st. cbn. apply H. Qed.

Lemma preserving_bind {A B} (c : M A) (f : A → M B) :
  preserving P c → (∀ a, preserving P (f a)) → preserving P (c ≫= f).
Proof.
  intros Hc Hf st. unfold mbind, M_bind.
  specialize (Hc st). destruct (c st) as [[a|e] st']; cbn in *; [|done].
  etransitivity; [exact Hc | apply Hf].
Qed.

Lemma preserving_dispatch {A} (clauses : list (clause A)) (e : exn) :
  Forall (λ cl, ∀ e, preserving P (snd cl e)) clauses →
  preserving P (dispatch clauses e).
Proof.
  induction 1 as [|[cs h] clauses Hh _ IH]; cbn.
  - apply preserving_raise.
  - destruct (isinstance_any e cs); [apply Hh | apply IH].
Qed.

Lemma preserving_try_except {A} (body : M A) (clauses : list (clause A)) :
  preserving P body →
  Forall (λ cl, ∀ e, preserving P (snd cl e)) clauses →
  preserving P (try_except body clauses).
Proof.
  intros Hb Hc st. unfold try_except.
  specialize (Hb st). destruct (body st) as [[a|e] st']; cbn in *; [done|].
  etransitivity; [exact Hb | by apply preserving_dispatch].
Qed.

End Preserving.

Ltac preserve_step :=
  first
    [ (apply preserving_bind; try tc_solve); [|intros ?]
    | (apply preserving_try_except; try tc_solve);
      [|repeat (apply Forall_cons_2; [cbn [snd]; intros ?|]);
         try apply Forall_nil_2]
    | apply preserving_ret; tc_solve
    | apply preserving_raise; tc_solve
    | apply preserving_logger; tc_solve
    | apply preserving_logger_each; tc_solve
    | apply preserving_get_self; tc_solve
    | apply preserving_perform; tc_solve
    | apply preserving_modify; intros []; first [done | by repeat split]
    | progress unfold Requests.post, Requests.get, Requests.delete, Requests.call,
        Requests.adapter_log, Requests.raise_for_status, response_json,
        Aiohttp.post, Aiohttp.get, Aiohttp.delete, Aiohttp.raise_for_status,
        Aiohttp.local, Aiohttp.status_of
    | progress cbn zeta
    | case_match ].

Ltac preserve := repeat preserve_step.

#[global] Instance same_configuration_refl : Reflexive same_configuration.
Proof. intros o. by repeat split. Qed.

#[global] Instance same_configuration_trans : Transitive same_configuration.
Proof.
  intros o1 o2 o3 (?&?&?&?&?&?&H12) (?&?&?&?&?&?&H23).
  repeat split; try congruence. intros s Hs. by apply H23, H12.
Qed.

#[global] Instance same_url_refl : Reflexive same_url.
Proof. by intros o. Qed.

#[global] Instance same_url_trans : Transitive same_url.
Proof. unfold same_url. intros o1 o2 o3 ? ?. congruence. Qed.

#[global] Instance same_async_session_refl : Reflexive same_async_session.
Proof. by intros o. Qed.

#[global] Instance same_async_session_trans : Transitive same_async_session.
Proof. unfold same_async_session. intros o1 o2 o3 ? ?. congruence. Qed.

Lemma preserving_refresh w : preserving same_configuration (Aiohttp.refresh_session w).
Proof.
  intros st. unfold Aiohttp.refresh_session, _create_async_session.
  destruct st as [o t l]. mopen.
  destruct (_async_session o) eqn:E; [|destruct (new_async_session w)]; mopen;
    destruct o; repeat split; cbn in *; congruence.
Qed.

Lemma refresh_keeps_url w : preserving same_url (Aiohttp.refresh_session w).
Proof.
  intros st. unfold Aiohttp.refresh_session, _create_async_session.
  destruct st as [o t l]. mopen.
  destruct (_async_session o) eqn:E; [|destruct (new_async_session w)]; mopen;
    by destruct o.
Qed.

Lemma operate_keeps_configuration w c a :
  preserving same_configuration (operate w c a).
Proof.
  destruct c, a as [[| |]| [] []| |]; unfold_operations.
  all: repeat first [apply preserving_refresh | preserve_step].
Qed.

Lemma operate_keeps_url w c a :
  match a with DoCall _ _ _ => True | _ => preserving same_url (operate w c a) end.
Proof.
  destruct c, a as [[| |]| [] []| |]; try done; unfold_operations.
  all: repeat first [apply refresh_keeps_url | preserve_step].
Qed.

Lemma sync_operate_keeps_async_session w a :
  preserving same_async_session (operate w Sync a).
Proof.
  destruct a as [[| |]| [] []| |]; unfold_operations.
  all: repeat preserve_step.
Qed.

(** X7.  No operation changes the base URL, the debug flag, the timeouts
    or the synchronous session of its object, nor replaces an
    asynchronous session that the object holds; the synchronous client
    never touches the asynchronous session; [_url] is written by the
    dynamic calls only, which leave the URL of their request in it. *)
Theorem operations_keep_configuration (w : world) (c : client) (a : operation)
    (o : object) :
  same_configuration o (after (operate w c a) o) ∧
  (c = Sync → _async_session (after (operate w c a) o) = _async_session o) ∧
  _url (after (operate w c a) o) =
    match a with
    | DoCall name data key => handler_url (_base_url o) name key
    | _ => _url o
    end.
Proof.
  split; [apply (operate_keeps_configuration w c a (State o [] []))|].
  split; [intros ->; apply (sync_operate_keeps_async_session w a (State o [] []))|].
  pose proof (operate_keeps_url w c a) as H.
  destruct a; try apply (H (State o [] [])).
  apply handler_sets_url.
Qed.

Lemma operations_keep_configuration_witness :
  _async_session
    (after (operate (failing timed_out) Sync (DoCall "greet" order None))
       live_proxy) = _async_session live_proxy ∧
  _url (after (operate (failing timed_out) Sync (DoCall "greet" order None))
          live_proxy) = "http://localhost:8080/Greeter/greet".
Proof.
  destruct (operations_keep_configuration (failing timed_out) Sync
              (DoCall "greet" order None) live_proxy) as (_ & Ha & Hu).
  split; [apply Ha; reflexivity | exact Hu].
Defined.

(** ** Construction: the pytest gate, the proxies, the singleton, the adapter *)

(** X17.  On a client built under pytest the synchronous operations
    issue no request, but the asynchronous [send] builds a session and
    sends: the gate of [RestateBase.__init__] holds the synchronous
    client only. *)
Theorem pytest_gate_is_sync_only (w : world) (environ : gmap string string)
    (debug : bool) (base_url : string) (ct kai kat : option Z) (st : state)
    (a : operation) (f : send_form) (payload : pyobj) (d : Z)
    (ik : option string) :
  in_test_harness environ = true →
  new_async_session w = None →
  let o := self (snd (RestateBase_init w environ debug base_url ct kai kat st)) in
  wire (operate w Sync a) o = [] ∧
  wire (send w Async f payload d ik) o = [send_request o f payload d ik].
Proof.
  intros Hh Hn o. split.
  - apply one_request_per_call. unfold has_session, o.
    by rewrite init_in_harness.
  - rewrite send_wire. unfold sent, has_session. rewrite Hn.
    rewrite (bool_decide_true (None = None)) by done. by rewrite orb_true_r.
Qed.

Lemma pytest_gate_is_sync_only_witness :
  in_test_harness pytest_environ = true ∧
  new_async_session (answering ok_response) = None ∧
  wire (operate (answering ok_response) Sync
          (DoSend (ServiceSend "orders" "create") order 0 None)) harness_client
    = [] ∧
  wire (send (answering ok_response) Async (ServiceSend "orders" "create")
          order 0 None) harness_client
    = [send_request harness_client (ServiceSend "orders" "create") order 0 None].
Proof.
  split; [reflexivity|]. split; [reflexivity|].
  apply (pytest_gate_is_sync_only (answering ok_response) pytest_environ false
           "http://localhost:8080" None None None (State blank [] [])
           (DoSend (ServiceSend "orders" "create") order 0 None)
           (ServiceSend "orders" "create") order 0 None); reflexivity.
Defined.

Lemma getattr_proxy w environ service o :
  let proxy := proxy_of (run (RestateClient.getattr w environ service) o) in
  result (RestateClient.getattr w environ service) o = Return proxy ∧
  wire (RestateClient.getattr w environ service) o = [] ∧
  _url (after (RestateClient.getattr w environ service) o)
    = _base_url o +:+ "/" +:+ service ∧
  _base_url proxy = _base_url o +:+ "/" +:+ service ∧
  _debug proxy = _debug o ∧
  has_session w Sync proxy = negb (in_test_harness environ).
Proof.
  unfold RestateClient.getattr, RestateService.init, RestateBase_init,
    RestateBase_init_probing, construct, after, proxy_of, has_session.
  mopen. destruct (in_test_harness environ) eqn:Hh; mopen;
    [by repeat split|].
  rewrite adapter_init_run. mopen.
  pose proof (new_async_session_raises w) as He.
  destruct (new_async_session w) as [e|]; mopen;
    [rewrite (He e eq_refl); mopen|]; by repeat split.
Qed.

(** Outside of pytest the construction of a client issues no request and
    logs the configuration of two adapters, its own and the one of the
    proxy that the probe of [_async_session] builds; the probe leaves its
    URL in [_url]. *)
Example client_construction :
  run (RestateClient.init (answering ok_response) ∅ false
         "http://localhost:8080" None None None) blank =
  (Return tt,
   State live_client []
     [(DEBUG,
       "TCP keep-alive configured: OS will send keep-alive pings after 5s idle, every 5s, max 2 failed probes");
      (DEBUG,
       "TCP keep-alive configured: OS will send keep-alive pings after 5s idle, every 5s, max 2 failed probes")]) ∧
  _url live_client = "http://localhost:8080/_async_session" ∧
  is_Some (_session live_client) ∧ is_Some (_async_session live_client).
Proof.
  split; [by vm_compute|]. split; [by vm_compute|].
  split; vm_compute; by eexists.
Qed.

(** X18.  [client.Service] never raises and issues no request; it leaves
    [{base}/Service] in the client's [_url], and a dynamic call on the
    proxy it returns goes to [{base}/Service/{name}] (with the key
    segment when a key is given), or nowhere under pytest. *)
Theorem client_attribute_call (w : world) (environ : gmap string string)
    (service name : string) (data : pyobj) (key : option string) (o : object) :
  ∃ proxy,
    result (RestateClient.getattr w environ service) o = Return proxy ∧
    wire (RestateClient.getattr w environ service) o = [] ∧
    _url (after (RestateClient.getattr w environ service) o)
      = _base_url o +:+ "/" +:+ service ∧
    wire (call_handler w Sync name data key) proxy =
      if in_test_harness environ then []
      else [handler_request (_base_url o +:+ "/" +:+ service) name data key].
Proof.
  destruct (getattr_proxy w environ service o) as (Hr & Hw & Hu & Hb & _ & Hs).
  eexists. split; [exact Hr|]. split; [exact Hw|]. split; [exact Hu|].
  rewrite handler_wire, Hs, Hb. by destruct (in_test_harness environ).
Qed.

(** X19.  Once a class has its instance, every later call of the class
    returns the same reference, whatever arguments it is given, without
    running [__init__] and without changing the registry or the state. *)
Theorem singleton_returns_first_instance (cls : string) (init : M unit)
    (reg reg' : Singleton.registry) (ref : nat) (st st' : state) :
  Singleton.call cls init reg st = (Return (ref, reg'), st') →
  ∀ (init' : M unit) (st'' : state),
    Singleton.call cls init' reg' st'' = (Return (ref, reg'), st'').
Proof.
  unfold Singleton.call. intros H init' st''.
  destruct (Singleton._instances reg !! cls) as [ref0|] eqn:E.
  - cbn in H. injection H as <- <- <-. by rewrite E.
  - unfold mbind, M_bind in H.
    destruct (construct init st) as [[o|e] st1]; [|done].
    cbn [Singleton._instances] in H. rewrite lookup_insert_eq in H.
    cbn in H. injection H as <- <- <-. cbn [Singleton._instances].
    by rewrite lookup_insert_eq.
Qed.

Lemma singleton_returns_first_instance_witness :
  first_call = (Return (0%nat, first_registry), snd first_call) ∧
  Singleton.call "RestateClient" second_init first_registry (State blank [] [])
    = (Return (0%nat, first_registry), State blank [] []).
Proof.
  assert (first_call = (Return (0%nat, first_registry), snd first_call)) as H
    by reflexivity.
  split; [exact H|].
  exact (singleton_returns_first_instance "RestateClient" _ Singleton.empty
           first_registry 0 (State blank [] []) (snd first_call) H
           second_init (State blank [] [])).
Defined.

(** X20.  The first successful call of a class stores the object that
    [__init__] built under a reference that no other class holds, keeps
    the instances of the other classes, and leaves the registry well
    formed. *)
Theorem singleton_registers_fresh_instance (cls : string) (init : M unit)
    (reg reg' : Singleton.registry) (ref : nat) (st st' : state) :
  Singleton.well_formed reg →
  Singleton._instances reg !! cls = None →
  Singleton.call cls init reg st = (Return (ref, reg'), st') →
  Singleton.well_formed reg' ∧
  (∃ o, fst (construct init st) = Return o ∧
        Singleton.heap reg' !! ref = Some o) ∧
  (∀ r o, Singleton.heap reg !! r = Some o → Singleton.heap reg' !! r = Some o) ∧
  (∀ cls' r, cls' ≠ cls →
     (Singleton._instances reg' !! cls' = Some r ↔
      Singleton._instances reg !! cls' = Some r) ∧
     (Singleton._instances reg' !! cls' = Some r → r ≠ ref)).
Proof.
  unfold Singleton.call. intros Hwf E H. rewrite E in H.
  unfold mbind, M_bind in H.
  destruct (construct init st) as [[o|e] st1]; [|done].
  cbn [Singleton._instances] in H. rewrite lookup_insert_eq in H.
  cbn in H. injection H as <- <- <-. cbn. repeat split.
  - intros cls' r. cbn. intros [[<- <-]|[Hne Hr]]%lookup_insert_Some.
    + rewrite lookup_app_r, Nat.sub_diag by done. by eexists.
    + destruct (Hwf cls' r Hr) as [o' Ho']. exists o'.
      by apply lookup_app_l_Some.
  - exists o. by rewrite lookup_app_r, Nat.sub_diag.
  - intros r o' Ho'. by apply lookup_app_l_Some.
  - by rewrite lookup_insert_ne.
  - by rewrite lookup_insert_ne.
  - rewrite lookup_insert_ne by done. intros Hr ->.
    destruct (Hwf cls' _ Hr) as [o' Ho']. apply lookup_lt_Some in Ho'. lia.
Qed.

Lemma singleton_registers_fresh_instance_witness :
  Singleton.well_formed first_registry ∧
  Singleton._instances first_registry !! "RestateAsyncClient" = None ∧
  second_call = (Return (1%nat, second_registry), snd second_call) ∧
  Singleton.well_formed second_registry ∧
  Singleton._instances second_registry !! "RestateClient" = Some 0%nat ∧
  (∃ o, Singleton.heap first_registry !! 0%nat = Some o ∧
        Singleton.heap second_registry !! 0%nat = Some o) ∧
  is_Some (Singleton.heap second_registry !! 1%nat).
Proof.
  assert (Singleton.well_formed Singleton.empty) as Hwf0
    by (intros cls ref H; discriminate H).
  assert (first_call = (Return (0%nat, first_registry), snd first_call)) as H1
    by reflexivity.
  destruct (singleton_registers_fresh_instance "RestateClient" _ Singleton.empty
              first_registry 0 (State blank [] []) (snd first_call) Hwf0 eq_refl
              H1) as (Hwf1 & _).
  assert (second_call = (Return (1%nat, second_registry), snd second_call)) as H2
    by reflexivity.
  destruct (singleton_registers_fresh_instance "RestateAsyncClient" _
              first_registry second_registry 1 (State blank [] [])
              (snd second_call) Hwf1 eq_refl H2)
    as (Hwf2 & (o & _ & Ho) & Hheap & Hother).
  split; [exact Hwf1|]. split; [reflexivity|]. split; [exact H2|].
  split; [exact Hwf2|].
  destruct (Hother "RestateClient" 0%nat) as [[_ Hkept] _]; [discriminate|].
  split; [apply Hkept; reflexivity|].
  split; [|by exists o].
  destruct (Hwf1 "RestateClient" 0%nat eq_refl) as [o0 Ho0].
  exists o0. split; [exact Ho0 | apply Hheap, Ho0].
Defined.

Import TCPKeepAliveAdapter.

(** X21.  [init_poolmanager] always hands on socket options that are
    not [None]: the caller's when given and not [None] (then nothing
    changes and nothing is logged), the four keep-alive defaults when
    the argument is missing or [None] (then one debug record is
    logged); every other keyword argument is kept, no request is made,
    and a second pass changes nothing. *)
Theorem init_poolmanager_socket_options
    (kwargs : gmap string TCPKeepAliveAdapter.kwarg) (st : state) :
  ∃ kwargs' st',
    init_poolmanager kwargs st = (Return kwargs', st') ∧
    (∃ v, kwargs' !! "socket_options" = Some v ∧ v ≠ KwOther VNone) ∧
    (∀ k, k ≠ "socket_options" → kwargs' !! k = kwargs !! k) ∧
    (∀ v, kwargs !! "socket_options" = Some v → v ≠ KwOther VNone →
          kwargs' = kwargs ∧ st' = st) ∧
    (kwargs !! "socket_options" = None ∨
     kwargs !! "socket_options" = Some (KwOther VNone) →
     kwargs' !! "socket_options" =
       Some (KwSocketOptions
               [(SOL_SOCKET, SO_KEEPALIVE, 1);
                (IPPROTO_TCP, TCP_KEEPIDLE, 5);
                (IPPROTO_TCP, TCP_KEEPINTVL, 5);
                (IPPROTO_TCP, TCP_KEEPCNT, 2)]) ∧
     ∃ msg, log st' = (log st ++ [(DEBUG, msg)])%list) ∧
    self st' = self st ∧ trace st' = trace st ∧
    init_poolmanager kwargs' st' = (Return kwargs', st').
Proof.
  unfold init_poolmanager.
  destruct (kwargs !! "socket_options") as [[opts|[]]|] eqn:E; mopen;
    do 2 eexists; (split; [reflexivity|]); rewrite ?lookup_insert_eq, ?E; mopen;
    (split; [eexists; split; [reflexivity|done]|]);
    (split; [intros k Hk; by rewrite ?lookup_insert_ne|]);
    (split; [intros ? [= <-] ?; done || by intros ? [=] || done|]);
    (split; [intros [[=]|[=]]; eauto|]); done.
Qed.

Lemma init_poolmanager_socket_options_witness :
  ∃ kwargs' st',
    init_poolmanager {[ "socket_options" := KwOther VNone ]} (State blank [] [])
      = (Return kwargs', st') ∧
    kwargs' !! "socket_options" =
      Some (KwSocketOptions
              [(SOL_SOCKET, SO_KEEPALIVE, 1);
               (IPPROTO_TCP, TCP_KEEPIDLE, 5);
               (IPPROTO_TCP, TCP_KEEPINTVL, 5);
               (IPPROTO_TCP, TCP_KEEPCNT, 2)]) ∧
    ∃ kwargs'',
      fst (init_poolmanager caller_options (State blank [] [])) = Return kwargs'' ∧
      kwargs'' = caller_options.
Proof.
  destruct (init_poolmanager_socket_options
              {[ "socket_options" := KwOther VNone ]} (State blank [] []))
    as (kwargs' & st' & Hrun & _ & _ & _ & Hnone & _).
  exists kwargs', st'. split; [exact Hrun|].
  split; [apply Hnone; right; reflexivity|].
  destruct (init_poolmanager_socket_options caller_options (State blank [] []))
    as (kwargs'' & st'' & Hrun' & _ & _ & Hkeep & _).
  exists kwargs''. rewrite Hrun'. split; [reflexivity|].
  apply (Hkeep (KwSocketOptions [(SOL_SOCKET, SO_KEEPALIVE, 0)]));
    [reflexivity | discriminate].
Defined.
